(** * Daikin Alira integration: a shallow embedding and its properties

    The development follows the source files of the integration:
    [sensor.py] (status fetch, path navigation, hex decoding, the six
    telemetry values), [climate.py] (the control entity and its write
    operations) and [config_flow.py] (the host configuration step).

    Conventions of the embedding.
    - A value parsed from the device's JSON answer is a [json] term.
    - A Python computation that may raise is a [py A] term: [Ret a] or
      [Raise e], with [e] the class of the exception.
    - A finite Python [float] is the rational it denotes ([Q]); a float
      argument that may be infinite or NaN is a [pyfloat].  Division of
      integers is kept exact: this is what Python computes as long as the
      quotient is a double, which holds for an integer below 2^53 divided
      by 1 or 2.  Python rounds larger values to the nearest double and
      raises [OverflowError] beyond the range of doubles; neither is
      modelled, and the statements that go through a division bound the
      payload where it matters.
    - A [string] is a sequence of characters, one [ascii] per character. *)

From Stdlib Require Import ZArith QArith Qround List Bool String Ascii Lia.
From Stdlib.Strings Require Import Byte.
From Stdlib Require Import DecimalString Lqa.
From Stdlib Require Qcanon.
Import ListNotations.

Local Open Scope string_scope.
Local Open Scope Z_scope.

Set Implicit Arguments.
Set Warnings "-register-all".

(** ** Python exceptions and the computations that raise them *)

Module Py.

Inductive exn : Set :=
| StopIteration
| AttributeError
| TypeError
| KeyError
| IndexError
| ValueError
| ZeroDivisionError
| OverflowError
| ClientError          (* aiohttp.ClientError and its subclasses *)
| TimeoutError         (* asyncio.TimeoutError *)
| ConfigEntryNotReady
| PlainException.      (* raise Exception("...") *)

Definition exn_eqb (a b : exn) : bool :=
  match a, b with
  | StopIteration, StopIteration | AttributeError, AttributeError
  | TypeError, TypeError | KeyError, KeyError | IndexError, IndexError
  | ValueError, ValueError | ZeroDivisionError, ZeroDivisionError
  | OverflowError, OverflowError | ClientError, ClientError
  | TimeoutError, TimeoutError | ConfigEntryNotReady, ConfigEntryNotReady
  | PlainException, PlainException => true
  | _, _ => false
  end.

Inductive py (A : Type) : Type :=
| Ret (a : A)
| Raise (e : exn).

Arguments Ret {A} a.
Arguments Raise {A} e.

Definition bind {A B} (c : py A) (k : A -> py B) : py B :=
  match c with
  | Ret a => k a
  | Raise e => Raise e
  end.

(** [try: c except (classes): handler] *)
Definition try_except {A} (c : py A) (classes : list exn) (handler : exn -> py A) : py A :=
  match c with
  | Ret a => Ret a
  | Raise e => if existsb (exn_eqb e) classes then handler e else Raise e
  end.

End Py.

Import Py.

Notation "x <- c ;; k" := (bind c (fun x => k))
  (at level 61, c at next level, right associativity).

(** ** JSON values, as [resp.json()] hands them to the code *)

Inductive json : Type :=
| JNull
| JBool (b : bool)
| JInt (n : Z)
| JFloat (repr : string)   (* a non-integer number, kept as the text [str] gives for it *)
| JStr (s : string)
| JArr (items : list json)
| JObj (fields : list (string * json)).

(** A dict is kept as its items in insertion order; keys are distinct, and
    lookup takes the binding it finds. *)
Fixpoint dict_lookup {V} (fields : list (string * V)) (k : string) : option V :=
  match fields with
  | [] => None
  | (k', v) :: rest => if String.eqb k' k then Some v else dict_lookup rest k
  end.

(** [d[k] = v] on a dict: an existing key keeps its position. *)
Fixpoint dict_set {V} (fields : list (string * V)) (k : string) (v : V) : list (string * V) :=
  match fields with
  | [] => [(k, v)]
  | (k', v') :: rest =>
      if String.eqb k' k then (k', v) :: rest else (k', v') :: dict_set rest k v
  end.

Definition dict_keys {V} (fields : list (string * V)) : list string := map fst fields.

(** [{v: k for k, v in m.items()}] *)
Definition dict_reverse (m : list (string * string)) : list (string * string) :=
  fold_left (fun acc kv => dict_set acc (snd kv) (fst kv)) m [].

Definition chars (s : string) : list json :=
  map (fun c => JStr (String c EmptyString)) (list_ascii_of_string s).

(** [iter(v)] *)
Definition py_iter (v : json) : py (list json) :=
  match v with
  | JArr items => Ret items
  | JObj fields => Ret (map JStr (dict_keys fields))
  | JStr s => Ret (chars s)
  | _ => Raise TypeError
  end.

(** [v.get(k, d)]: only a dict has [get]. *)
Definition py_get (v : json) (k : string) (d : json) : py json :=
  match v with
  | JObj fields => Ret (match dict_lookup fields k with Some x => x | None => d end)
  | _ => Raise AttributeError
  end.

(** [v[i]] for a literal index [i >= 0]. *)
Definition py_index (v : json) (i : nat) : py json :=
  match v with
  | JArr items =>
      match nth_error items i with Some x => Ret x | None => Raise IndexError end
  | JStr s =>
      match nth_error (chars s) i with Some x => Ret x | None => Raise IndexError end
  | JObj _ => Raise KeyError
  | _ => Raise TypeError
  end.

(** [v[k]] for a literal string key [k]. *)
Definition py_key (v : json) (k : string) : py json :=
  match v with
  | JObj fields =>
      match dict_lookup fields k with Some x => Ret x | None => Raise KeyError end
  | _ => Raise TypeError
  end.

(** [len(v)] *)
Definition py_len (v : json) : py nat :=
  match v with
  | JArr items => Ret (List.length items)
  | JObj fields => Ret (List.length fields)
  | JStr s => Ret (String.length s)
  | _ => Raise TypeError
  end.

(** Truth value of [v] in [if v:]. *)
Definition py_truthy (v : json) : bool :=
  match v with
  | JNull => false
  | JBool b => b
  | JInt n => negb (n =? 0)%Z
  | JFloat r => negb (String.eqb r "0.0" || String.eqb r "-0.0")
  | JStr s => negb (String.eqb s "")
  | JArr items => match items with [] => false | _ => true end
  | JObj fields => match fields with [] => false | _ => true end
  end.

(** [v == s] for a string [s]. *)
Definition py_eq_str (v : json) (s : string) : bool :=
  match v with
  | JStr s' => String.eqb s' s
  | _ => false
  end.

(** [str(v)] for the hashable values (the only ones formatted and then used). *)
Definition py_str (v : json) : string :=
  match v with
  | JNull => "None"
  | JBool true => "True"
  | JBool false => "False"
  | JInt n => NilZero.string_of_int (Z.to_int n)
  | JFloat r => r
  | JStr s => s
  | JArr _ | JObj _ => ""
  end.

(** [m.get(v)] on a dict [m] with string keys: an unhashable [v] raises,
    any other value that is not a key gives [None]. *)
Definition map_get_opt {V} (m : list (string * V)) (v : json) : py (option V) :=
  match v with
  | JStr s => Ret (dict_lookup m s)
  | JArr _ | JObj _ => Raise TypeError
  | _ => Ret None
  end.

(** [m.get(v, d)] *)
Definition map_get {V} (m : list (string * V)) (v : json) (d : V) : py V :=
  o <- map_get_opt m v ;;
  Ret (match o with Some x => x | None => d end).

(** [next(item for item in node if item.get("pn") == seg)] *)
Fixpoint first_pn (items : list json) (seg : string) : py json :=
  match items with
  | [] => Raise StopIteration
  | item :: rest =>
      pn <- py_get item "pn" JNull ;;
      if py_eq_str pn seg then Ret item else first_pn rest seg
  end.

Definition next_pn (node : json) (seg : string) : py json :=
  items <- py_iter node ;; first_pn items seg.

(** ** Bytes and hexadecimal text *)

Module Hex.

Definition byte_of_N (n : N) : byte := byte_of_ascii (ascii_of_N n).

Definition N_of_byte (b : byte) : N := Byte.to_N b.

(** One lower-case hexadecimal digit, as [bytes.hex()] prints it. *)
Definition digit (n : N) : ascii :=
  if (n <? 10)%N then ascii_of_N (48 + n) else ascii_of_N (87 + n).

(** [bs.hex()] *)
Fixpoint bytes_hex (bs : list byte) : string :=
  match bs with
  | [] => EmptyString
  | b :: rest =>
      let n := N_of_byte b in
      String (digit (n / 16)) (String (digit (n mod 16)) (bytes_hex rest))
  end.

Definition upper_ascii (c : ascii) : ascii :=
  let n := N_of_ascii c in
  if ((97 <=? n) && (n <=? 122))%N then ascii_of_N (n - 32) else c.

(** [s.upper()] on ASCII text. *)
Fixpoint upper (s : string) : string :=
  match s with
  | EmptyString => EmptyString
  | String c rest => String (upper_ascii c) (upper rest)
  end.

(** Value of a hexadecimal digit, in either case. *)
Definition digit_value (c : ascii) : option N :=
  let n := N_of_ascii c in
  if ((48 <=? n) && (n <=? 57))%N then Some (n - 48)%N
  else if ((65 <=? n) && (n <=? 70))%N then Some (n - 55)%N
  else if ((97 <=? n) && (n <=? 102))%N then Some (n - 87)%N
  else None.

(** ASCII white space, which [bytes.fromhex] skips between bytes. *)
Definition is_space (c : ascii) : bool :=
  let n := N_of_ascii c in
  ((n =? 32) || ((9 <=? n) && (n <=? 13)))%N.

(** [bytes.fromhex(s)] over the characters of [s]: white space is skipped
    before a byte, the two digits of a byte are adjacent. *)
Fixpoint fromhex_chars (cs : list ascii) : py (list byte) :=
  match cs with
  | [] => Ret []
  | c :: rest =>
      if is_space c then fromhex_chars rest
      else
        match digit_value c, rest with
        | Some hi, d :: rest' =>
            match digit_value d with
            | Some lo =>
                bs <- fromhex_chars rest' ;;
                Ret (byte_of_N (hi * 16 + lo) :: bs)
            | None => Raise ValueError
            end
        | _, _ => Raise ValueError
        end
  end.

(** [bytes.fromhex(v)]: [v] must be a [str]. *)
Definition fromhex (v : json) : py (list byte) :=
  match v with
  | JStr s => fromhex_chars (list_ascii_of_string s)
  | _ => Raise TypeError
  end.

(** [int.from_bytes(bs, "little")] *)
Fixpoint int_from_bytes_little (bs : list byte) : Z :=
  match bs with
  | [] => 0
  | b :: rest => Z.of_N (N_of_byte b) + 256 * int_from_bytes_little rest
  end.

Fixpoint little_endian (len : nat) (n : Z) : list byte :=
  match len with
  | O => []
  | S len' => byte_of_N (Z.to_N (n mod 256)) :: little_endian len' (n / 256)
  end.

(** [n.to_bytes(len, byteorder="little", signed=False)] *)
Definition int_to_bytes_little (n : Z) (len : nat) : py (list byte) :=
  if (0 <=? n) && (n <? 256 ^ Z.of_nat len)
  then Ret (little_endian len n)
  else Raise OverflowError.

End Hex.

(** ** Numbers *)

(** [round(x)] of a float: to the nearest integer, ties to the even one. *)
Definition py_round (x : Q) : Z :=
  let f := Qfloor x in
  let r := (x - inject_Z f)%Q in
  match (r ?= 1 # 2)%Q with
  | Lt => f
  | Gt => f + 1
  | Eq => if Z.even f then f else f + 1
  end.

Definition Qlt_bool (x y : Q) : bool :=
  match (x ?= y)%Q with Lt => true | _ => false end.

(** A float argument: a finite double, an infinity or NaN. *)
Inductive pyfloat : Type :=
| Finite (q : Q)
| PosInf
| NegInf
| NaN.

(** [x < y] on floats: false as soon as one side is NaN. *)
Definition float_lt (x y : pyfloat) : bool :=
  match x, y with
  | NaN, _ | _, NaN => false
  | Finite a, Finite b => Qlt_bool a b
  | Finite _, PosInf => true
  | Finite _, NegInf => false
  | PosInf, _ => false
  | NegInf, NegInf => false
  | NegInf, _ => true
  end.

(** Half of the first power of two that is no double. *)
Definition DBL_HALF_RANGE : Q := inject_Z (2 ^ 1023).

(** [x * 2] on floats: exact on a double, unless the product leaves the
    range of doubles. *)
Definition float_times_two (x : pyfloat) : pyfloat :=
  match x with
  | Finite q =>
      if Qle_bool DBL_HALF_RANGE q then PosInf
      else if Qle_bool q (- DBL_HALF_RANGE) then NegInf
      else Finite (q * 2)
  | other => other
  end.

(** [round(x)] of a float: [ValueError] on NaN, [OverflowError] on an
    infinity. *)
Definition float_round (x : pyfloat) : py Z :=
  match x with
  | Finite q => Ret (py_round q)
  | NaN => Raise ValueError
  | PosInf | NegInf => Raise OverflowError
  end.

(** [a / b] of two ints, as a float: the exact quotient (see the
    conventions above for the range in which Python computes the same). *)
Definition py_truediv (a b : Z) : py Q :=
  if b =? 0 then Raise ZeroDivisionError
  else Ret (Qred (inject_Z a / inject_Z b)).

(** ** The HTTP session, seen from the integration *)

Module Http.

(** What the code reads of a response: its status and the result of
    [await resp.json()]. *)
Record response : Type := { status : Z; json_body : py json }.

(** The device and the network behind [session.post], [session.put] and
    [session.get]: each call answers or raises. *)
Record session : Type := {
  post : string -> json -> py response;
  put : string -> json -> py response;
  get : string -> py response
}.

(** [resp.raise_for_status()]: aiohttp raises [ClientResponseError], a
    [ClientError], for a status of 400 and above. *)
Definition raise_for_status (resp : response) : py unit :=
  if 400 <=? status resp then Raise ClientError else Ret tt.

End Http.

(** ** The polling loop *)

Module Coordinator.

(** Modelled from the spec: the polling loop is the host platform's
    [DataUpdateCoordinator], whose code is not in the repository.  It holds
    the last fetched tree, a last-success flag and a name; a refresh calls
    the fetch function, stores its result and sets the flag when the call
    returns, and clears the flag, keeping the old tree, when the call
    raises.  The first refresh of a setup raises when the flag is clear. *)
Record t : Type := {
  name : string;
  data : json;
  last_update_success : bool
}.

(** Modelled from the spec: a new loop has no tree yet and its flag set. *)
Definition create (name : string) : t :=
  {| name := name; data := JNull; last_update_success := true |}.

(** Modelled from the spec: one poll, on the schedule or on request;
    [update_method] is the outcome of the fetch function at that poll. *)
Definition async_refresh (update_method : py json) (c : t) : t :=
  match update_method with
  | Ret tree => {| name := name c; data := tree; last_update_success := true |}
  | Raise _ => {| name := name c; data := data c; last_update_success := false |}
  end.

(** Modelled from the spec: the required first poll of a setup. *)
Definition async_config_entry_first_refresh (update_method : py json) (c : t) : py t :=
  let c' := async_refresh update_method c in
  if last_update_success c' then Ret c' else Raise ConfigEntryNotReady.

End Coordinator.

(** What an entity reports as its device. *)
Record device_info : Type := {
  identifiers : list (string * string);
  device_name : string;
  manufacturer : string;
  model : string
}.

(** ** sensor.py *)

Module Sensor.

(** The body sent by a status read. *)
Definition payload : json :=
  JObj [("requests",
         JArr [JObj [("op", JInt 2);
                     ("to", JStr "/dsiot/edge/adr_0100.dgc_status")]])].

Definition fetch_status (session : Http.session) (host : string) : py json :=
  let url := "http://" ++ host ++ "/dsiot/multireq" in
  try_except
    (resp <- Http.post session url payload ;;
     _ <- Http.raise_for_status resp ;;
     data <- Http.json_body resp ;;
     responses <- py_key data "responses" ;;
     first <- py_index responses 0 ;;
     pc <- py_key first "pc" ;;
     py_key pc "pch")
    [ClientError; TimeoutError; KeyError]
    (fun _ => Ret (JArr [])).

(** What [native_value] can be: [None], a float or a label. *)
Inductive native : Type :=
| NoValue
| Number (q : Q)
| Text (s : string).

(** The [for] loop of [_get_by_path]. *)
Fixpoint descend (node : json) (path_segments : list string) : py json :=
  match path_segments with
  | [] => Ret node
  | seg :: rest =>
      item <- next_pn node seg ;;
      node' <- py_get item "pch" (JArr []) ;;
      descend node' rest
  end.

Definition _get_by_path (data : json) (path_segments : list string) : py json :=
  try_except (descend data path_segments)
    [StopIteration; AttributeError; TypeError]
    (fun _ => Ret (JArr [])).

Definition _parse_hex_to_int (hexstr : json) (scale : Z) : native :=
  match
    (bs <- Hex.fromhex hexstr ;;
     py_truediv (Hex.int_from_bytes_little bs) scale)
  with
  | Ret q => Number q
  | Raise _ => NoValue
  end.

Definition FAN_SPEED_MAP : list (string * string) :=
  [("0300", "1"); ("0400", "2"); ("0500", "3"); ("0600", "4"); ("0700", "5");
   ("0A00", "Auto"); ("0B00", "Quiet")].

Definition MODE_MAP : list (string * string) :=
  [("0300", "Auto"); ("0200", "Cool"); ("0100", "Heat"); ("0000", "Fan");
   ("0500", "Dry")].

Definition POWER_MAP : list (string * string) :=
  [("00", "Off"); ("01", "On")].

(** [f"Unknown ({hexstr})"] *)
Definition unknown (hexstr : json) : string :=
  "Unknown (" ++ py_str hexstr ++ ")".

(** The six sensor classes. *)
Inductive sensor : Set :=
| DaikinSetpointSensor
| DaikinIndoorTempSensor
| DaikinIndoorHumiditySensor
| DaikinFanSpeedSensor
| DaikinModeSensor
| DaikinPowerSensor.

Definition _get_value (s : sensor) (data : json) : py native :=
  match s with
  | DaikinSetpointSensor =>
      path <- _get_by_path data ["e_1002"; "e_3001"] ;;
      n <- py_len path ;;
      if (3 <=? n)%nat then
        leaf <- py_index path 2 ;;
        pv <- py_get leaf "pv" (JStr "") ;;
        Ret (_parse_hex_to_int pv 2)
      else Ret NoValue
  | DaikinIndoorTempSensor =>
      path <- _get_by_path data ["e_1002"; "e_A00B"] ;;
      if py_truthy path then
        leaf <- py_index path 0 ;;
        pv <- py_get leaf "pv" (JStr "") ;;
        Ret (_parse_hex_to_int pv 1)
      else Ret NoValue
  | DaikinIndoorHumiditySensor =>
      path <- _get_by_path data ["e_1002"; "e_A00B"] ;;
      n <- py_len path ;;
      if (1 <? n)%nat then
        leaf <- py_index path 1 ;;
        pv <- py_get leaf "pv" (JStr "") ;;
        Ret (_parse_hex_to_int pv 1)
      else Ret NoValue
  | DaikinFanSpeedSensor =>
      path <- _get_by_path data ["e_1002"; "e_3001"] ;;
      n <- py_len path ;;
      if (9 <=? n)%nat then
        leaf <- py_index path 8 ;;
        hexstr <- py_get leaf "pv" (JStr "") ;;
        label <- map_get FAN_SPEED_MAP hexstr (unknown hexstr) ;;
        Ret (Text label)
      else Ret NoValue
  | DaikinModeSensor =>
      path <- _get_by_path data ["e_1002"; "e_3001"] ;;
      if py_truthy path then
        leaf <- py_index path 0 ;;
        hexstr <- py_get leaf "pv" (JStr "") ;;
        label <- map_get MODE_MAP hexstr (unknown hexstr) ;;
        Ret (Text label)
      else Ret NoValue
  | DaikinPowerSensor =>
      path <- _get_by_path data ["e_1002"; "e_A002"] ;;
      if py_truthy path then
        leaf <- py_index path 0 ;;
        hexstr <- py_get leaf "pv" (JStr "") ;;
        label <- map_get POWER_MAP hexstr (unknown hexstr) ;;
        Ret (Text label)
      else Ret NoValue
  end.

Definition unique_suffix (s : sensor) : string :=
  match s with
  | DaikinSetpointSensor => "setpoint"
  | DaikinIndoorTempSensor => "indoor_temp"
  | DaikinIndoorHumiditySensor => "indoor_humidity"
  | DaikinFanSpeedSensor => "fan_speed"
  | DaikinModeSensor => "mode"
  | DaikinPowerSensor => "power"
  end.



Section WithDomain.

(** [DOMAIN] comes from [const.py], which is not among the sources. *)
Variable DOMAIN : string.

Definition unique_id (c : Coordinator.t) (s : sensor) : string :=
  DOMAIN ++ "_" ++ Coordinator.name c ++ "_" ++ unique_suffix s.

Definition device_info_of (c : Coordinator.t) (s : sensor) : device_info :=
  {| identifiers := [(DOMAIN, Coordinator.name c)];
     device_name := "Daikin Alira";
     manufacturer := "Daikin";
     model := "Alira" |}.

(** [async_setup_entry]: the polling loop and the entities handed to
    [async_add_entities], or the exception of the first refresh. *)
Definition async_setup_entry (session : Http.session) (host : string)
  : py (Coordinator.t * list sensor) :=
  let coordinator := Coordinator.create (DOMAIN ++ "-" ++ host) in
  c <- Coordinator.async_config_entry_first_refresh (fetch_status session host) coordinator ;;
  Ret (c, [DaikinSetpointSensor; DaikinIndoorTempSensor; DaikinIndoorHumiditySensor;
           DaikinFanSpeedSensor; DaikinModeSensor; DaikinPowerSensor]).

End WithDomain.

End Sensor.

(** ** climate.py *)

Module Climate.

Definition HVAC_MODE_OFF := "off".
Definition HVAC_MODE_AUTO := "auto".
Definition HVAC_MODE_COOL := "cool".
Definition HVAC_MODE_HEAT := "heat".
Definition HVAC_MODE_FAN_ONLY := "fan_only".
Definition HVAC_MODE_DRY := "dry".

Definition SUPPORTED_HVAC_MODES : list string :=
  [HVAC_MODE_OFF; HVAC_MODE_AUTO; HVAC_MODE_COOL; HVAC_MODE_HEAT;
   HVAC_MODE_FAN_ONLY; HVAC_MODE_DRY].

Definition MIN_TEMP : Q := 16.
Definition MAX_TEMP : Q := 30.
Definition TEMP_STEP : Q := 1 # 2.

Definition FAN_SPEED_MAP : list (string * string) :=
  [("0300", "1"); ("0400", "2"); ("0500", "3"); ("0600", "4"); ("0700", "5");
   ("0A00", "Auto"); ("0B00", "Quiet")].

Definition FAN_SPEED_REVERSE_MAP : list (string * string) :=
  dict_reverse FAN_SPEED_MAP.

Definition MODE_MAP : list (string * string) :=
  [("0300", HVAC_MODE_AUTO); ("0200", HVAC_MODE_COOL); ("0100", HVAC_MODE_HEAT);
   ("0000", HVAC_MODE_FAN_ONLY); ("0500", HVAC_MODE_DRY)].

Definition MODE_REVERSE_MAP : list (string * string) :=
  dict_reverse MODE_MAP.

Definition fan_modes : list string := dict_keys FAN_SPEED_REVERSE_MAP.

(** [try: c except Exception: return d] around a whole body. *)
Definition or_default {A} (c : py A) (d : A) : A :=
  match c with
  | Ret a => a
  | Raise _ => d
  end.

(** The two [next(...)] lines every property starts with: the children of
    [group] under [e_1002]. *)
Definition children_of (node : json) (group : string) : py json :=
  level1 <- next_pn node "e_1002" ;;
  level1_pch <- py_get level1 "pch" (JArr []) ;;
  level2 <- next_pn level1_pch group ;;
  py_get level2 "pch" (JArr []).

Definition _get_power_value (data : json) : json :=
  or_default
    (pch <- children_of data "e_A002" ;;
     leaf <- py_index pch 0 ;;
     py_get leaf "pv" (JStr "00"))
    (JStr "00").

Definition hvac_mode (data : json) : string :=
  or_default
    (let power_hex := _get_power_value data in
     if negb (py_eq_str power_hex "01") then Ret HVAC_MODE_OFF
     else
       pch <- children_of data "e_3001" ;;
       leaf <- py_index pch 0 ;;
       mode_hex <- py_get leaf "pv" (JStr "") ;;
       map_get MODE_MAP mode_hex HVAC_MODE_OFF)
    HVAC_MODE_OFF.

Definition current_temperature (data : json) : option Z :=
  or_default
    (pch <- children_of data "e_A00B" ;;
     leaf <- py_index pch 0 ;;
     hexstr <- py_get leaf "pv" (JStr "") ;;
     bs <- Hex.fromhex hexstr ;;
     Ret (Some (Hex.int_from_bytes_little bs)))
    None.

(** [raw / 2.0] is kept exact, as [py_truediv] is. *)
Definition target_temperature (data : json) : option Q :=
  or_default
    (pch <- children_of data "e_3001" ;;
     leaf <- py_index pch 2 ;;
     hexstr <- py_get leaf "pv" (JStr "") ;;
     bs <- Hex.fromhex hexstr ;;
     let raw := Hex.int_from_bytes_little bs in
     Ret (Some (Qred (inject_Z raw / 2))))
    None.

Definition fan_mode (data : json) : option string :=
  or_default
    (pch <- children_of data "e_3001" ;;
     leaf <- py_index pch 8 ;;
     hexstr <- py_get leaf "pv" (JStr "") ;;
     map_get_opt FAN_SPEED_MAP hexstr)
    None.

(** *** Write operations

    A write issues HTTP calls, logs, and asks the polling loop for a
    refresh.  The state threaded through them records each of these. *)

Inductive level : Set := Debug | Info | Warning | Error.

Record world : Type := {
  session : Http.session;              (* the device and the network *)
  sent : list (string * json);         (* PUT requests issued, oldest first *)
  refresh_requests : nat;              (* calls of [async_request_refresh] *)
  logged : list level;                 (* log records, oldest first *)
  coordinator : Coordinator.t;         (* the entity's own polling loop *)
  cooldown : bool                      (* the loop has polled on request a moment ago *)
}.

Definition log (l : level) (w : world) : world :=
  {| session := session w; sent := sent w; refresh_requests := refresh_requests w;
     logged := logged w ++ [l]; coordinator := coordinator w;
     cooldown := cooldown w |}.

(** [session.put(url, json=payload, headers=...)]: the request leaves, the
    session answers. *)
Definition put (url : string) (payload : json) (w : world) : world * py Http.response :=
  ({| session := session w; sent := sent w ++ [(url, payload)];
      refresh_requests := refresh_requests w; logged := logged w;
      coordinator := coordinator w; cooldown := cooldown w |},
   Http.put (session w) url payload).

(** Modelled from the spec: [await self.coordinator.async_request_refresh()]
    belongs to the host platform's polling loop, whose code is not in the
    repository.  The request is counted.  The loop, whose update method is
    [fetch_status(session, host)], polls at once unless it has polled on
    request a moment ago; in that case the poll is put off until the
    cooldown ends, and is a later [Coordinator.async_refresh]. *)
Definition async_request_refresh (host : string) (w : world) : world :=
  {| session := session w; sent := sent w;
     refresh_requests := S (refresh_requests w); logged := logged w;
     coordinator :=
       if cooldown w then coordinator w
       else Coordinator.async_refresh
              (Sensor.fetch_status (session w) host) (coordinator w);
     cooldown := true |}.

(** One request object: operation 3 on [dgc_status], down to the leaf
    [param] of [group] under [e_1002]. *)
Definition set_request (group param pv : string) : json :=
  JObj [("op", JInt 3);
        ("to", JStr "/dsiot/edge/adr_0100.dgc_status");
        ("pc", JObj [("pn", JStr "dgc_status");
                     ("pch", JArr [JObj [("pn", JStr "e_1002");
                                         ("pch", JArr [JObj [("pn", JStr group);
                                                             ("pch", JArr [JObj [("pn", JStr param);
                                                                                 ("pv", JStr pv)]])]])]])])].

Definition requests (rs : list json) : json := JObj [("requests", JArr rs)].

(** The [try: async with session.put(...) ... except Exception] block
    followed by the refresh, common to the four write paths. *)
Definition send_and_refresh (host : string) (payload : json) (w : world) : world :=
  let url := "http://" ++ host ++ "/dsiot/multireq" in
  let (w1, answer) := put url payload w in
  let w2 :=
    match (resp <- answer ;; Http.raise_for_status resp) with
    | Ret _ => log Info w1
    | Raise _ => log Error w1
    end in
  async_request_refresh host w2.

Definition async_set_hvac_mode (host : string) (hvac_mode : string) (w : world) : world :=
  if String.eqb hvac_mode HVAC_MODE_OFF then
    send_and_refresh host (requests [set_request "e_A002" "p_01" "00"]) w
  else
    match dict_lookup MODE_REVERSE_MAP hvac_mode with
    | None => log Warning w
    | Some mode_hex =>
        send_and_refresh host
          (requests [set_request "e_A002" "p_01" "01";
                     set_request "e_3001" "p_01" mode_hex]) w
    end.

(** The hex string sent for a finite temperature: clamp, double, round,
    two little-endian bytes, upper-case hex.  (For a float that may be
    infinite or NaN see [temperature_payload] below, which is this
    computation on a finite one.) *)
Definition temperature_hex (temp : Q) : py string :=
  let temp :=
    if Qlt_bool temp MIN_TEMP then MIN_TEMP
    else if Qlt_bool MAX_TEMP temp then MAX_TEMP
    else temp in
  let raw_value := py_round (temp * 2)%Q in
  raw_bytes <- Hex.int_to_bytes_little raw_value 2 ;;
  Ret (Hex.upper (Hex.bytes_hex raw_bytes)).

(** The same lines of [async_set_temperature] for any float: the two
    comparisons are false on NaN, which then reaches [round]. *)
Definition temperature_payload (temp : pyfloat) : py string :=
  let temp :=
    if float_lt temp (Finite MIN_TEMP) then Finite MIN_TEMP
    else if float_lt (Finite MAX_TEMP) temp then Finite MAX_TEMP
    else temp in
  raw_value <- float_round (float_times_two temp) ;;
  raw_bytes <- Hex.int_to_bytes_little raw_value 2 ;;
  Ret (Hex.upper (Hex.bytes_hex raw_bytes)).

(** [kwargs.get("temperature")] is [temperature]; an exception raised
    before the [try] leaves the method. *)
Definition async_set_temperature (host : string) (temperature : option pyfloat)
    (w : world) : py world :=
  match temperature with
  | None => Ret w
  | Some temp =>
      hexstr <- temperature_payload temp ;;
      Ret (send_and_refresh host (requests [set_request "e_3001" "p_03" hexstr]) w)
  end.

Definition async_set_fan_mode (host : string) (fan_mode : string) (w : world) : world :=
  match dict_lookup FAN_SPEED_REVERSE_MAP fan_mode with
  | None => log Warning w
  | Some hexcode =>
      send_and_refresh host (requests [set_request "e_3001" "p_0A" hexcode]) w
  end.

Section WithDomain.

Variable DOMAIN : string.

(** The entity: [self.host]; its polling loop lives in the [world]. *)
Definition unique_id (host : string) : string := DOMAIN ++ "_" ++ host ++ "_climate".

Definition device_info_of (host : string) : device_info :=
  {| identifiers := [(DOMAIN, DOMAIN ++ "-" ++ host)];
     device_name := "Daikin Alira";
     manufacturer := "Daikin";
     model := "Alira" |}.

(** [async_setup_entry]: the hosts of the entities handed to
    [async_add_entities], with the polling loop; nothing when the first
    refresh raises. *)
Definition async_setup_entry (session : Http.session) (host : string)
  : option (Coordinator.t * list string) :=
  let coordinator := Coordinator.create (DOMAIN ++ "-" ++ host ++ "-climate") in
  match Coordinator.async_config_entry_first_refresh
          (Sensor.fetch_status session host) coordinator with
  | Raise _ => None
  | Ret c => Some (c, [host])
  end.

End WithDomain.

End Climate.

(** ** config_flow.py *)

Module ConfigFlow.

Inductive flow_result : Type :=
| CreateEntry (title : string) (data : list (string * string))
| ShowForm (step_id : string) (errors : list (string * string)).

Section WithConst.

(** [CONF_HOST] comes from [const.py], which is not among the sources. *)
Variable CONF_HOST : string.

(** The probe inside the [try]: GET, then the status test. *)
Definition probe (session : Http.session) (host : string) : py unit :=
  resp <- Http.get session ("http://" ++ host ++ "/") ;;
  if negb (Http.status resp =? 200) then Raise PlainException else Ret tt.

Definition async_step_user (session : Http.session)
    (user_input : option (list (string * string))) : py flow_result :=
  match user_input with
  | Some input =>
      match dict_lookup input CONF_HOST with
      | None => Raise KeyError
      | Some host =>
          match probe session host with
          | Raise _ => Ret (ShowForm "user" [("base", "cannot_connect")])
          | Ret _ => Ret (CreateEntry ("Daikin @ " ++ host) input)
          end
      end
  | None => Ret (ShowForm "user" [])
  end.

End WithConst.

End ConfigFlow.

(** ** __init__.py *)

Module Init.

Section WithConst.

(** [PLATFORMS] comes from [const.py], which is not among the sources. *)
Variable PLATFORMS : list string.

(** [PLATFORMS[i]] *)
Definition platform (i : nat) : py string :=
  match nth_error PLATFORMS i with
  | Some p => Ret p
  | None => Raise IndexError
  end.

Definition async_setup : bool := true.

(** [async_setup_entry]: the platforms whose setup has been handed to
    [hass.async_create_task], in order, and the value returned; the tasks
    are not awaited. *)
Definition async_setup_entry : list string * py bool :=
  match platform 0 with
  | Raise e => ([], Raise e)
  | Ret sensor =>
      match platform 1 with
      | Raise e => ([sensor], Raise e)
      | Ret climate => ([sensor; climate], Ret true)
      end
  end.

(** [async_unload_entry]: [unload p] is the outcome of awaiting
    [hass.config_entries.async_forward_entry_unload(entry, p)]; the result
    is the platforms whose unload was awaited, in order, and the value
    returned. *)
Definition async_unload_entry (unload : string -> py bool) : list string * py bool :=
  match platform 0 with
  | Raise e => ([], Raise e)
  | Ret sensor =>
      match unload sensor with
      | Raise e => ([sensor], Raise e)
      | Ret _ =>
          match platform 1 with
          | Raise e => ([sensor], Raise e)
          | Ret climate =>
              match unload climate with
              | Raise e => ([sensor; climate], Raise e)
              | Ret _ => ([sensor; climate], Ret true)
              end
          end
      end
  end.

End WithConst.

End Init.

(** ** Vocabulary of the statements *)

(** [item] is a node whose name is [seg]. *)
Definition named (seg : string) (item : json) : bool :=
  match item with
  | JObj fields =>
      match dict_lookup fields "pn" with
      | Some (JStr s) => String.eqb s seg
      | _ => false
      end
  | _ => false
  end.

(** Some node of the level [node] is named [seg]. *)
Definition level_has (node : json) (seg : string) : bool :=
  match node with
  | JArr items => existsb (named seg) items
  | _ => false
  end.

(** The raw value [raw] survives the trip the setpoint takes: two
    little-endian bytes, upper-case hex of four characters, and back. *)
Definition round_trips (raw : Z) : bool :=
  match Hex.int_to_bytes_little raw 2 with
  | Ret bs =>
      let h := Hex.upper (Hex.bytes_hex bs) in
      (String.length h =? 4)%nat &&
      match Hex.fromhex (JStr h) with
      | Ret bs' => Hex.int_from_bytes_little bs' =? raw
      | Raise _ => false
      end
  | Raise _ => false
  end.



(** Case analysis on a lookup in a table written out in full. *)
Ltac by_table H :=
  cbn [dict_lookup] in H;
  repeat match type of H with
         | context [String.eqb ?a ?b] =>
             destruct (String.eqb_spec a b); [subst | ]
         end.

(** A status node as the device sends it: a dict whose [pv], when
    present, is a string and whose [pch], when present, is a list of status
    nodes. *)
Inductive status_node : json -> Prop :=
| StatusNode (fields : list (string * json)) :
    (forall v, dict_lookup fields "pv" = Some v -> exists s, v = JStr s) ->
    (forall v, dict_lookup fields "pch" = Some v ->
               exists items, v = JArr items /\ Forall status_node items) ->
    status_node (JObj fields).

(** A status tree: a list of status nodes. *)
Definition status_tree (data : json) : Prop :=
  exists items, data = JArr items /\ Forall status_node items.

(** The tree reports the payload [pv] at position [i] of [group] under
    e_1002. *)
Definition reports (data : json) (group : string) (i : nat) (pv : string) : Prop :=
  exists items fields,
    Sensor._get_by_path data ["e_1002"; group] = Ret (JArr items) /\
    nth_error items i = Some (JObj fields) /\
    dict_lookup fields "pv" = Some (JStr pv).

(** [item] is a dict that does not bear the name [seg]. *)
Definition other_node (seg : string) (item : json) : bool :=
  match item with
  | JObj _ => negb (named seg item)
  | _ => false
  end.

(** What a write that reaches the network does to the state: one PUT of
    [reqs] to the device, one log record that tells whether it went
    through, one request for a refresh of the polling loop. *)
Definition write_effect (host : string) (reqs : list json) (w w' : Climate.world) : Prop :=
  let url := "http://" ++ host ++ "/dsiot/multireq" in
  let payload := Climate.requests reqs in
  Climate.session w' = Climate.session w /\
  Climate.sent w' = (Climate.sent w ++ [(url, payload)])%list /\
  Climate.refresh_requests w' = S (Climate.refresh_requests w) /\
  Climate.logged w'
  = (Climate.logged w
     ++ [match Http.put (Climate.session w) url payload with
         | Ret resp => if 400 <=? Http.status resp then Climate.Error else Climate.Info
         | Raise _ => Climate.Error
         end])%list.

(** The exception classes [_get_by_path] catches. *)
Definition navigation_errors : list exn := [StopIteration; AttributeError; TypeError].

(** ** Concrete devices and trees *)

Module Examples.

Definition host : string := "192.168.1.10".

Definition leaf (pn pv : string) : json := JObj [("pn", JStr pn); ("pv", JStr pv)].

Definition group (pn : string) (pch : list json) : json :=
  JObj [("pn", JStr pn); ("pch", JArr pch)].

(** A status tree as the device sends it, with the given power, mode and
    fan codes and a setpoint of 24.5 degrees. *)
Definition tree (power mode fan : string) : json :=
  JArr [group "e_1002"
          [group "e_A002" [leaf "p_01" power];
           group "e_3001"
             [leaf "p_01" mode; leaf "p_02" "00"; leaf "p_03" "3100";
              leaf "p_04" "00"; leaf "p_05" "00"; leaf "p_06" "00";
              leaf "p_07" "00"; leaf "p_08" "00"; leaf "p_0A" fan];
           group "e_A00B" [leaf "p_01" "18"; leaf "p_02" "32"]]].

(** The same tree with the payload of the setpoint leaf missing. *)
Definition tree_without_setpoint : json :=
  JArr [group "e_1002"
          [group "e_A002" [leaf "p_01" "01"];
           group "e_3001"
             [leaf "p_01" "0200"; leaf "p_02" "00"; JObj [("pn", JStr "p_03")]]]].

Definition answer (body : json) : py Http.response :=
  Ret {| Http.status := 200; Http.json_body := Ret body |}.

Definition status_body (tree : json) : json :=
  JObj [("responses", JArr [JObj [("pc", JObj [("pch", tree)])]])].

(** A device that answers every call with [r]. *)
Definition device (r : py Http.response) : Http.session :=
  {| Http.post := fun _ _ => r; Http.put := fun _ _ => r; Http.get := fun _ => r |}.

Definition healthy : Http.session := device (answer (status_body (tree "01" "0200" "0A00"))).

(** Every call times out. *)
Definition timing_out : Http.session := device (Raise TimeoutError).

(** The device answers 200 with an empty [responses] array. *)
Definition empty_responses : Http.session :=
  device (answer (JObj [("responses", JArr [])])).

(** The polling loop of the telemetry surface after a successful poll. *)
Definition polled : Coordinator.t :=
  {| Coordinator.name := "daikin_alira-192.168.1.10";
     Coordinator.data := tree "01" "0200" "0A00";
     Coordinator.last_update_success := true |}.

Definition idle (s : Http.session) : Climate.world :=
  {| Climate.session := s; Climate.sent := []; Climate.refresh_requests := 0%nat;
     Climate.logged := []; Climate.coordinator := polled;
     Climate.cooldown := false |}.

(** A tree whose setpoint entry is a bare string instead of a node. *)
Definition tree_with_bare_leaf : json :=
  JArr [group "e_1002"
          [group "e_3001" [leaf "p_01" "0200"; leaf "p_02" "00"; JStr "3100"]]].

End Examples.

(** * Properties *)

(** ** Path navigation *)

Section Navigation.

Import Sensor.

Lemma py_get_raises (v : json) (k : string) (d : json) (e : exn) :
  py_get v k d = Raise e -> e = AttributeError.
Proof. destruct v; simpl; congruence. Qed.

Lemma first_pn_raises (seg : string) (items : list json) (e : exn) :
  first_pn items seg = Raise e -> e = StopIteration \/ e = AttributeError.
Proof.
  induction items as [|item rest IH]; simpl.
  - intros H; left; congruence.
  - destruct (py_get item "pn" JNull) as [pn|e'] eqn:Hget; simpl.
    + destruct (py_eq_str pn seg); [discriminate | exact IH].
    + intros H; right. apply py_get_raises in Hget. congruence.
Qed.

Lemma next_pn_raises (node : json) (seg : string) (e : exn) :
  next_pn node seg = Raise e -> In e navigation_errors.
Proof.
  unfold next_pn, navigation_errors.
  destruct (py_iter node) as [items|e'] eqn:Hiter; simpl.
  - intros H. destruct (first_pn_raises _ _ H) as [-> | ->]; simpl; auto.
  - intros H. destruct node; simpl in Hiter; inversion Hiter; subst;
      inversion H; subst; simpl; auto.
Qed.

Lemma descend_raises (path : list string) (data : json) (e : exn) :
  descend data path = Raise e -> In e navigation_errors.
Proof.
  revert data. induction path as [|seg rest IH]; intros data; simpl.
  - discriminate.
  - destruct (next_pn data seg) as [item|e'] eqn:Hnext; simpl.
    + destruct (py_get item "pch" (JArr [])) as [node'|e''] eqn:Hget; simpl.
      * apply IH.
      * intros H. apply py_get_raises in Hget. inversion H; subst.
        unfold navigation_errors; simpl; auto.
    + intros H. inversion H; subst. eapply next_pn_raises; eauto.
Qed.

Lemma descend_app (pre post : list string) (data : json) :
  descend data (pre ++ post)%list = (node <- descend data pre ;; descend node post).
Proof.
  revert data. induction pre as [|seg pre IH]; intros data; simpl.
  - reflexivity.
  - destruct (next_pn data seg) as [item|e]; simpl; [|reflexivity].
    destruct (py_get item "pch" (JArr [])) as [node'|e]; simpl; [|reflexivity].
    apply IH.
Qed.

Lemma first_pn_found (seg : string) (items : list json) (item : json) :
  first_pn items seg = Ret item -> existsb (named seg) items = true.
Proof.
  induction items as [|x rest IH]; simpl.
  - discriminate.
  - destruct x; simpl; try discriminate.
    unfold named at 1.
    destruct (dict_lookup fields "pn") as [[| | | |s| |]|]; simpl; auto.
    destruct (String.eqb s seg); simpl; auto.
Qed.

Lemma next_pn_found (node : json) (seg : string) (item : json) :
  next_pn node seg = Ret item -> level_has node seg = true.
Proof.
  unfold next_pn. destruct node; simpl; try discriminate.
  - (* a str: its characters have no [get] *)
    unfold chars. destruct (list_ascii_of_string s); simpl; discriminate.
  - apply first_pn_found.
  - (* a dict: its keys have no [get] *)
    destruct fields as [|[k v] rest]; simpl; discriminate.
Qed.

Lemma get_by_path_total (data : json) (path : list string) :
  exists v, _get_by_path data path = Ret v.
Proof.
  unfold _get_by_path.
  destruct (descend data path) as [v|e] eqn:H; simpl.
  - eauto.
  - apply descend_raises in H. unfold navigation_errors in H; simpl in H.
    destruct H as [<- | [<- | [<- | []]]]; simpl; eauto.
Qed.

End Navigation.

(** C8.  For every tree and every path, navigation returns a value and
    raises nothing; and when the walk reaches a level none of whose nodes
    bears the next segment's name, the value returned is the empty
    sequence. *)
Theorem path_navigation_miss (data : json) (path : list string) :
  (exists v, Sensor._get_by_path data path = Ret v) /\
  (forall pre seg post node,
      path = (pre ++ seg :: post)%list ->
      Sensor.descend data pre = Ret node ->
      level_has node seg = false ->
      Sensor._get_by_path data path = Ret (JArr [])).
Proof.
  split; [apply get_by_path_total|].
  intros pre seg post node -> Hpre Hmiss.
  unfold Sensor._get_by_path.
  rewrite descend_app, Hpre; simpl.
  destruct (next_pn node seg) as [item|e] eqn:Hnext; simpl.
  - apply next_pn_found in Hnext. congruence.
  - apply next_pn_raises in Hnext. unfold navigation_errors in Hnext; simpl in Hnext.
    destruct Hnext as [<- | [<- | [<- | []]]]; reflexivity.
Qed.

(** A tree without [e_1002] at its first level, asked for a path of depth
    three. *)
Lemma path_navigation_miss_witness :
  (Sensor.descend (JArr [Examples.group "e_0000" []]) [] = Ret (JArr [Examples.group "e_0000" []]) /\
   level_has (JArr [Examples.group "e_0000" []]) "e_1002" = false) /\
  Sensor._get_by_path (JArr [Examples.group "e_0000" []]) ["e_1002"; "e_3001"; "p_01"]
    = Ret (JArr []).
Proof.
  split; [split; reflexivity|].
  apply (proj2 (path_navigation_miss (JArr [Examples.group "e_0000" []])
                  ["e_1002"; "e_3001"; "p_01"])
           [] "e_1002" ["e_3001"; "p_01"] (JArr [Examples.group "e_0000" []]));
    reflexivity.
Defined.

(** ** Temperatures *)

Section Temperatures.

Local Open Scope Q_scope.

Lemma py_round_integer (x : Q) (k : Z) : x == inject_Z k -> py_round x = k.
Proof.
  intros H. unfold py_round. cbv zeta.
  assert (Hf : Qfloor x = k) by (rewrite H; apply Qfloor_Z).
  rewrite Hf.
  assert (Hr : (x - inject_Z k ?= 1 # 2) = Lt).
  { apply Qlt_alt. rewrite H. unfold Qminus. rewrite Qplus_opp_r. reflexivity. }
  rewrite Hr. reflexivity.
Qed.

Lemma Qlt_bool_false (x y : Q) : y <= x -> Qlt_bool x y = false.
Proof.
  intros H. unfold Qlt_bool.
  destruct (x ?= y) eqn:E; try reflexivity.
  exfalso. apply (Qlt_not_le x y); [apply Qlt_alt; exact E | exact H].
Qed.

Lemma raw_values_round_trip (k : Z) :
  (32 <= k <= 60)%Z -> round_trips k = true.
Proof.
  intros Hk.
  assert (Hall : forallb round_trips (map Z.of_nat (seq 32 29)) = true)
    by (vm_compute; reflexivity).
  rewrite forallb_forall in Hall. apply Hall.
  apply in_map_iff. exists (Z.to_nat k). split; [lia|].
  apply in_seq. lia.
Qed.

End Temperatures.

(** C1.  For every temperature [t] that is a multiple of 0.5 (that is,
    [k / 2] for an integer [k]) in [16, 30], the hex string the
    set-temperature operation sends for [t] has four characters (two
    bytes), and decoding it at scale 2 gives [t] back. *)
Theorem temperature_round_trip (t : Q) (k : Z) :
  (t == inject_Z k * (1 # 2))%Q -> (16 <= t)%Q -> (t <= 30)%Q ->
  exists h d,
    Climate.temperature_hex t = Ret h /\
    String.length h = 4%nat /\
    Sensor._parse_hex_to_int (JStr h) 2 = Sensor.Number d /\
    (d == t)%Q.
Proof.
  intros Ht Hlo Hhi.
  assert (Ht2 : (t * 2 == inject_Z k)%Q).
  { rewrite Ht. unfold Qeq; simpl. lia. }
  assert (Hk : 32 <= k <= 60).
  { split.
    - rewrite Zle_Qle, <- Ht2.
      change (inject_Z 32) with (16 * 2)%Q.
      apply Qmult_le_compat_r; [exact Hlo | discriminate].
    - rewrite Zle_Qle, <- Ht2.
      change (inject_Z 60) with (30 * 2)%Q.
      apply Qmult_le_compat_r; [exact Hhi | discriminate]. }
  pose proof (raw_values_round_trip Hk) as Hrt.
  unfold round_trips in Hrt.
  unfold Climate.temperature_hex.
  rewrite (Qlt_bool_false (x := t) (y := Climate.MIN_TEMP) Hlo).
  rewrite (Qlt_bool_false (x := Climate.MAX_TEMP) (y := t) Hhi).
  rewrite (py_round_integer Ht2).
  destruct (Hex.int_to_bytes_little k 2) as [bs|e]; [|discriminate].
  simpl bind.
  apply andb_prop in Hrt. destruct Hrt as [Hlen Hdec].
  exists (Hex.upper (Hex.bytes_hex bs)), (Qred (inject_Z k / inject_Z 2)).
  split; [reflexivity|].
  split; [apply Nat.eqb_eq; exact Hlen|].
  unfold Sensor._parse_hex_to_int.
  destruct (Hex.fromhex (JStr (Hex.upper (Hex.bytes_hex bs)))) as [bs'|e];
    [|discriminate].
  apply Z.eqb_eq in Hdec. simpl bind. rewrite Hdec.
  split; [reflexivity|].
  rewrite Qred_correct, Ht. unfold Qeq; simpl. lia.
Qed.

(** 24.5 degrees: raw 49, hex ["3100"]. *)
Lemma temperature_round_trip_witness :
  ((49 # 2 == inject_Z 49 * (1 # 2))%Q /\ (16 <= 49 # 2)%Q /\ (49 # 2 <= 30)%Q) /\
  exists h d,
    Climate.temperature_hex (49 # 2) = Ret h /\
    String.length h = 4%nat /\
    Sensor._parse_hex_to_int (JStr h) 2 = Sensor.Number d /\
    (d == 49 # 2)%Q.
Proof.
  split.
  - repeat split; unfold Qle; simpl; lia.
  - apply (@temperature_round_trip (49 # 2) 49).
    + reflexivity.
    + unfold Qle; simpl; lia.
    + unfold Qle; simpl; lia.
Defined.

(** ** Reading the tree *)

Section Reading.

(** The control entity walks the tree with its own two [next(...)] lines;
    where the telemetry helper finds a non-empty level, they find the same. *)
Lemma get_by_path_children (data : json) (group : string) (x : json) (xs : list json) :
  Sensor._get_by_path data ["e_1002"; group] = Ret (JArr (x :: xs)) ->
  Climate.children_of data group = Ret (JArr (x :: xs)).
Proof.
  unfold Sensor._get_by_path, Climate.children_of. simpl Sensor.descend.
  destruct (next_pn data "e_1002") as [level1|e1] eqn:H1; simpl bind.
  - destruct (py_get level1 "pch" (JArr [])) as [pch1|e2]; simpl bind.
    + destruct (next_pn pch1 group) as [level2|e3]; simpl bind.
      * destruct (py_get level2 "pch" (JArr [])) as [pch2|e4]; simpl.
        -- congruence.
        -- destruct e4; discriminate.
      * destruct e3; discriminate.
    + destruct e2; discriminate.
  - destruct e1; discriminate.
Qed.

Lemma nth_error_length_le {A} (l : list A) (n : nat) (x : A) :
  nth_error l n = Some x -> (S n <=? List.length l)%nat = true.
Proof.
  intros H. apply Nat.leb_le.
  apply (proj1 (nth_error_Some l n)). congruence.
Qed.

Lemma parse_empty_hex (scale : Z) :
  scale <> 0 -> Sensor._parse_hex_to_int (JStr "") scale = Sensor.Number 0.
Proof.
  intros Hs. unfold Sensor._parse_hex_to_int, py_truediv. simpl.
  destruct (scale =? 0) eqn:E; [apply Z.eqb_eq in E; contradiction|].
  reflexivity.
Qed.

End Reading.

(** C10.  Decoding the empty hex string succeeds and gives 0 (0 divided by
    the scale), not an absent value; so for every tree whose setpoint leaf
    (the third child under e_1002 -> e_3001) is a node without [pv], the
    setpoint sensor and the control entity's target temperature both read
    0 rather than no value. *)
Theorem empty_payload_reads_zero (data : json) (items : list json)
    (fields : list (string * json)) :
  Sensor._get_by_path data ["e_1002"; "e_3001"] = Ret (JArr items) ->
  nth_error items 2 = Some (JObj fields) ->
  dict_lookup fields "pv" = None ->
  (forall scale, scale <> 0 ->
     Sensor._parse_hex_to_int (JStr "") scale = Sensor.Number 0) /\
  Sensor._get_value Sensor.DaikinSetpointSensor data = Ret (Sensor.Number 0) /\
  Climate.target_temperature data = Some (inject_Z 0).
Proof.
  intros Hpath Hnth Hpv.
  split; [exact parse_empty_hex|]. split.
  - unfold Sensor._get_value. rewrite Hpath. cbn [bind py_len].
    rewrite (nth_error_length_le _ _ Hnth).
    cbn [bind py_index]. rewrite Hnth. cbn [bind py_get]. rewrite Hpv.
    rewrite parse_empty_hex by discriminate. reflexivity.
  - destruct items as [|x xs]; [discriminate|].
    unfold Climate.target_temperature.
    rewrite (get_by_path_children _ _ Hpath).
    cbn [bind py_index]. rewrite Hnth. cbn [bind py_get]. rewrite Hpv.
    reflexivity.
Qed.

(** A tree whose third e_3001 leaf is [{"pn": "p_03"}]. *)
Lemma empty_payload_reads_zero_witness :
  (Sensor._get_by_path Examples.tree_without_setpoint ["e_1002"; "e_3001"]
     = Ret (JArr [Examples.leaf "p_01" "0200"; Examples.leaf "p_02" "00";
                  JObj [("pn", JStr "p_03")]]) /\
   dict_lookup [("pn", JStr "p_03")] "pv" = None) /\
  Sensor._get_value Sensor.DaikinSetpointSensor Examples.tree_without_setpoint
    = Ret (Sensor.Number 0) /\
  Climate.target_temperature Examples.tree_without_setpoint = Some (inject_Z 0).
Proof.
  split; [split; reflexivity|].
  apply (@empty_payload_reads_zero Examples.tree_without_setpoint
           [Examples.leaf "p_01" "0200"; Examples.leaf "p_02" "00";
            JObj [("pn", JStr "p_03")]]
           [("pn", JStr "p_03")]); reflexivity.
Defined.

(** ** Operation mode and fan mode *)

Section Modes.

Lemma py_eq_str_true (v : json) (s : string) : py_eq_str v s = true <-> v = JStr s.
Proof.
  destruct v; simpl; try (split; [discriminate | congruence]).
  rewrite String.eqb_eq. split; congruence.
Qed.

Lemma py_eq_str_false (v : json) (s : string) : v <> JStr s -> py_eq_str v s = false.
Proof.
  intros H. destruct (py_eq_str v s) eqn:E; [|reflexivity].
  apply py_eq_str_true in E. contradiction.
Qed.

Lemma fan_reverse_lookup (hex label : string) :
  dict_lookup Climate.FAN_SPEED_MAP hex = Some label ->
  dict_lookup Climate.FAN_SPEED_REVERSE_MAP label = Some hex.
Proof.
  unfold Climate.FAN_SPEED_MAP. intros H.
  by_table H; try discriminate; inversion H; subst; reflexivity.
Qed.

Lemma fan_reverse_absent (label : string) :
  ~ In label Climate.fan_modes ->
  dict_lookup Climate.FAN_SPEED_REVERSE_MAP label = None.
Proof.
  intros Hnot.
  destruct (dict_lookup Climate.FAN_SPEED_REVERSE_MAP label) as [hex|] eqn:H;
    [|reflexivity].
  exfalso. apply Hnot.
  change Climate.FAN_SPEED_REVERSE_MAP
    with [("1", "0300"); ("2", "0400"); ("3", "0500"); ("4", "0600");
          ("5", "0700"); ("Auto", "0A00"); ("Quiet", "0B00")] in H.
  by_table H; try discriminate; vm_compute; tauto.
Qed.

Lemma mode_reverse_absent (mode : string) :
  ~ In mode Climate.SUPPORTED_HVAC_MODES ->
  String.eqb mode Climate.HVAC_MODE_OFF = false /\
  dict_lookup Climate.MODE_REVERSE_MAP mode = None.
Proof.
  intros Hnot. split.
  - destruct (String.eqb_spec mode Climate.HVAC_MODE_OFF); [|reflexivity].
    exfalso. apply Hnot. subst. vm_compute. tauto.
  - destruct (dict_lookup Climate.MODE_REVERSE_MAP mode) as [hex|] eqn:H;
      [|reflexivity].
    exfalso. apply Hnot.
    change Climate.MODE_REVERSE_MAP
      with [("auto", "0300"); ("cool", "0200"); ("heat", "0100");
            ("fan_only", "0000"); ("dry", "0500")] in H.
    by_table H; try discriminate; vm_compute; tauto.
Qed.

End Modes.

(** C7.  Every hex code of the Fan Map, mapped to its label and back
    through the reverse map, comes back unchanged (the telemetry and the
    control surface use the same table); and for every tree whose ninth
    leaf under e_1002 -> e_3001 carries a code [hex] outside the Fan Map,
    the telemetry fan speed is ["Unknown (<hex>)"] while the control
    entity's fan mode has no value. *)
Theorem fan_map_bijection :
  Sensor.FAN_SPEED_MAP = Climate.FAN_SPEED_MAP /\
  (forall hex label,
      dict_lookup Climate.FAN_SPEED_MAP hex = Some label ->
      dict_lookup Climate.FAN_SPEED_REVERSE_MAP label = Some hex) /\
  (forall data items fields hex,
      Sensor._get_by_path data ["e_1002"; "e_3001"] = Ret (JArr items) ->
      nth_error items 8 = Some (JObj fields) ->
      dict_lookup fields "pv" = Some (JStr hex) ->
      dict_lookup Sensor.FAN_SPEED_MAP hex = None ->
      Sensor._get_value Sensor.DaikinFanSpeedSensor data
        = Ret (Sensor.Text ("Unknown (" ++ hex ++ ")")) /\
      Climate.fan_mode data = None).
Proof.
  split; [reflexivity|]. split; [exact fan_reverse_lookup|].
  intros data items fields hex Hpath Hnth Hpv Hmiss. split.
  - unfold Sensor._get_value. rewrite Hpath. cbn [bind py_len].
    rewrite (nth_error_length_le _ _ Hnth).
    cbn [bind py_index]. rewrite Hnth. cbn [bind py_get]. rewrite Hpv.
    unfold map_get. cbn [map_get_opt bind]. rewrite Hmiss. reflexivity.
  - destruct items as [|x xs]; [discriminate|].
    unfold Climate.fan_mode.
    rewrite (get_by_path_children _ _ Hpath).
    cbn [bind py_index]. rewrite Hnth. cbn [bind py_get]. rewrite Hpv.
    cbn [map_get_opt]. change Climate.FAN_SPEED_MAP with Sensor.FAN_SPEED_MAP.
    rewrite Hmiss. reflexivity.
Qed.

(** The code "0A00" goes to "Auto" and back; a tree reporting "FFFF". *)
Lemma fan_map_bijection_witness :
  (dict_lookup Climate.FAN_SPEED_MAP "0A00" = Some "Auto" /\
   dict_lookup Sensor.FAN_SPEED_MAP "FFFF" = None) /\
  dict_lookup Climate.FAN_SPEED_REVERSE_MAP "Auto" = Some "0A00" /\
  Sensor._get_value Sensor.DaikinFanSpeedSensor (Examples.tree "01" "0200" "FFFF")
    = Ret (Sensor.Text "Unknown (FFFF)") /\
  Climate.fan_mode (Examples.tree "01" "0200" "FFFF") = None.
Proof.
  split; [split; reflexivity|]. split.
  - apply (proj1 (proj2 fan_map_bijection) "0A00" "Auto"). reflexivity.
  - refine (proj2 (proj2 fan_map_bijection)
              (Examples.tree "01" "0200" "FFFF") _
              [("pn", JStr "p_0A"); ("pv", JStr "FFFF")] "FFFF" _ _ _ _);
      reflexivity.
Defined.

(** ** Write operations *)

(** C5.  The fan labels are the seven known ones.  For every state of the
    control surface: a set-fan-mode call with any other label, and a
    set-operation-mode call with a mode that is neither off nor one of the
    five mapped modes, only log a warning; no HTTP write is issued, no
    refresh is requested and the polling loop's state is unchanged. *)
Theorem unsupported_inputs_rejected (host : string) (w : Climate.world) :
  Climate.fan_modes = ["1"; "2"; "3"; "4"; "5"; "Auto"; "Quiet"] /\
  (forall fan_mode,
      ~ In fan_mode Climate.fan_modes ->
      let w' := Climate.async_set_fan_mode host fan_mode w in
      w' = Climate.log Climate.Warning w /\
      Climate.sent w' = Climate.sent w /\
      Climate.refresh_requests w' = Climate.refresh_requests w /\
      Climate.coordinator w' = Climate.coordinator w) /\
  (forall hvac_mode,
      ~ In hvac_mode Climate.SUPPORTED_HVAC_MODES ->
      let w' := Climate.async_set_hvac_mode host hvac_mode w in
      w' = Climate.log Climate.Warning w /\
      Climate.sent w' = Climate.sent w /\
      Climate.refresh_requests w' = Climate.refresh_requests w /\
      Climate.coordinator w' = Climate.coordinator w).
Proof.
  split; [reflexivity|]. split.
  - intros fan_mode Hnot w'. subst w'. unfold Climate.async_set_fan_mode.
    rewrite (fan_reverse_absent Hnot). repeat split.
  - intros hvac_mode Hnot w'. subst w'. unfold Climate.async_set_hvac_mode.
    destruct (mode_reverse_absent Hnot) as [Hoff Hnone].
    rewrite Hoff, Hnone. repeat split.
Qed.

(** "Turbo" is no fan label and "eco" no operation mode. *)
Lemma unsupported_inputs_rejected_witness :
  (~ In "Turbo" Climate.fan_modes /\ ~ In "eco" Climate.SUPPORTED_HVAC_MODES) /\
  Climate.sent (Climate.async_set_fan_mode Examples.host "Turbo"
                  (Examples.idle Examples.healthy)) = [] /\
  Climate.refresh_requests (Climate.async_set_hvac_mode Examples.host "eco"
                              (Examples.idle Examples.healthy)) = 0%nat.
Proof.
  assert (Hfan : ~ In "Turbo" Climate.fan_modes).
  { vm_compute. intros H. repeat (destruct H as [H|H]; [discriminate|]). exact H. }
  assert (Hmode : ~ In "eco" Climate.SUPPORTED_HVAC_MODES).
  { vm_compute. intros H. repeat (destruct H as [H|H]; [discriminate|]). exact H. }
  split; [split; assumption|]. split.
  - apply (proj1 (proj2 (unsupported_inputs_rejected Examples.host
                           (Examples.idle Examples.healthy))) "Turbo" Hfan).
  - apply (proj2 (proj2 (unsupported_inputs_rejected Examples.host
                           (Examples.idle Examples.healthy))) "eco" Hmode).
Defined.

(** ** Configuration flow *)

(** C6.  For a submitted form holding a host, and every outcome of the
    probe GET http://<host>/: when the probe answers with status 200 the
    flow creates the record titled "Daikin @ <host>"; when it answers with
    any other status, or raises, the flow shows the form again with the
    error base = "cannot_connect" and creates nothing. *)
Theorem connectivity_probe_gating (CONF_HOST : string) (session : Http.session)
    (input : list (string * string)) (host : string) :
  dict_lookup input CONF_HOST = Some host ->
  let result := ConfigFlow.async_step_user CONF_HOST session (Some input) in
  let answer := Http.get session ("http://" ++ host ++ "/") in
  (forall resp, answer = Ret resp -> Http.status resp = 200 ->
     result = Ret (ConfigFlow.CreateEntry ("Daikin @ " ++ host) input)) /\
  (forall resp, answer = Ret resp -> Http.status resp <> 200 ->
     result = Ret (ConfigFlow.ShowForm "user" [("base", "cannot_connect")])) /\
  (forall e, answer = Raise e ->
     result = Ret (ConfigFlow.ShowForm "user" [("base", "cannot_connect")])) /\
  ((exists title data, result = Ret (ConfigFlow.CreateEntry title data)) <->
   (exists resp, answer = Ret resp /\ Http.status resp = 200)).
Proof.
  intros Hhost result answer.
  assert (Hok : forall resp, answer = Ret resp -> Http.status resp = 200 ->
            result = Ret (ConfigFlow.CreateEntry ("Daikin @ " ++ host) input)).
  { intros resp Ha Hs. subst result answer.
    unfold ConfigFlow.async_step_user, ConfigFlow.probe.
    rewrite Hhost, Ha. cbn [bind]. rewrite Hs. reflexivity. }
  assert (Hbad : forall resp, answer = Ret resp -> Http.status resp <> 200 ->
            result = Ret (ConfigFlow.ShowForm "user" [("base", "cannot_connect")])).
  { intros resp Ha Hs. subst result answer.
    unfold ConfigFlow.async_step_user, ConfigFlow.probe.
    rewrite Hhost, Ha. cbn [bind].
    apply Z.eqb_neq in Hs. rewrite Hs. reflexivity. }
  assert (Hexn : forall e, answer = Raise e ->
            result = Ret (ConfigFlow.ShowForm "user" [("base", "cannot_connect")])).
  { intros e Ha. subst result answer.
    unfold ConfigFlow.async_step_user, ConfigFlow.probe.
    rewrite Hhost, Ha. reflexivity. }
  repeat split; try assumption.
  - intros (title & data & Hres).
    destruct answer as [resp|e] eqn:Ha.
    + destruct (Z.eq_dec (Http.status resp) 200) as [Hs|Hs].
      * exists resp. split; [reflexivity | exact Hs].
      * rewrite (Hbad resp eq_refl Hs) in Hres. discriminate.
    + rewrite (Hexn e eq_refl) in Hres. discriminate.
  - intros (resp & Ha & Hs). eauto.
Qed.

(** A device answering 200 gets its record. *)
Lemma connectivity_probe_gating_witness :
  dict_lookup [("host", Examples.host)] "host" = Some Examples.host /\
  ConfigFlow.async_step_user "host" Examples.healthy (Some [("host", Examples.host)])
    = Ret (ConfigFlow.CreateEntry ("Daikin @ " ++ Examples.host) [("host", Examples.host)]).
Proof.
  split; [reflexivity|].
  refine (proj1 (@connectivity_probe_gating "host" Examples.healthy
                   [("host", Examples.host)] Examples.host eq_refl) _ eq_refl eq_refl).
Defined.

(** ** Device identity *)

Section Identity.

Lemma refresh_keeps_name (update : py json) (c : Coordinator.t) :
  Coordinator.name (Coordinator.async_refresh update c) = Coordinator.name c.
Proof. unfold Coordinator.async_refresh. destruct update; reflexivity. Qed.

Lemma refreshes_keep_name (polls : list (py json)) (c : Coordinator.t) :
  Coordinator.name (fold_left (fun c u => Coordinator.async_refresh u c) polls c)
  = Coordinator.name c.
Proof.
  revert c. induction polls as [|u rest IH]; intros c; simpl.
  - reflexivity.
  - rewrite IH. apply refresh_keeps_name.
Qed.

End Identity.

(** C9.  For every domain name and host: once the telemetry surface is set
    up, and after any number of later polls of its loop, the device each
    of the six telemetry values reports (identifiers taken from the loop's
    name, name, manufacturer, model) is the device the control entity
    reports for the same host; in particular the identifiers are the same
    pair. *)
Theorem device_identifiers_agree (DOMAIN host : string) (session : Http.session)
    (c : Coordinator.t) (sensors : list Sensor.sensor) (polls : list (py json))
    (s : Sensor.sensor) :
  Sensor.async_setup_entry DOMAIN session host = Ret (c, sensors) ->
  let c' := fold_left (fun c u => Coordinator.async_refresh u c) polls c in
  Sensor.device_info_of DOMAIN c' s = Climate.device_info_of DOMAIN host /\
  identifiers (Sensor.device_info_of DOMAIN c' s) = [(DOMAIN, DOMAIN ++ "-" ++ host)].
Proof.
  intros Hsetup c'.
  assert (Hname : Coordinator.name c' = DOMAIN ++ "-" ++ host).
  { subst c'. rewrite refreshes_keep_name.
    unfold Sensor.async_setup_entry, Coordinator.async_config_entry_first_refresh in Hsetup.
    cbv zeta in Hsetup.
    destruct (Coordinator.last_update_success _) eqn:Hflag; [|discriminate].
    cbn [bind] in Hsetup. inversion Hsetup; subst.
    apply refresh_keeps_name. }
  unfold Sensor.device_info_of, Climate.device_info_of. rewrite Hname.
  split; reflexivity.
Qed.

(** The healthy device, polled once more after setup. *)
Lemma device_identifiers_agree_witness :
  exists c sensors,
    Sensor.async_setup_entry "daikin_alira" Examples.healthy Examples.host
      = Ret (c, sensors) /\
    Sensor.device_info_of "daikin_alira"
      (Coordinator.async_refresh (Sensor.fetch_status Examples.healthy Examples.host) c)
      Sensor.DaikinPowerSensor
    = Climate.device_info_of "daikin_alira" Examples.host.
Proof.
  eexists. eexists. split; [reflexivity|].
  refine (proj1 (@device_identifiers_agree "daikin_alira" Examples.host Examples.healthy
                   _ _ [Sensor.fetch_status Examples.healthy Examples.host]
                   Sensor.DaikinPowerSensor eq_refl)).
Defined.

(** ** Status fetch and the polling loop *)

Section Fetch.

Variables (session : Http.session) (host : string).


(** A well-formed answer gives [responses[0].pc.pch]. *)
Lemma fetch_status_success (status : Z) (tree : json) :
  status < 400 ->
  Http.post session ("http://" ++ host ++ "/dsiot/multireq") Sensor.payload
    = Ret {| Http.status := status;
             Http.json_body := Ret (Examples.status_body tree) |} ->
  Sensor.fetch_status session host = Ret tree.
Proof.
  intros Hs H. unfold Sensor.fetch_status. cbv zeta. rewrite H.
  cbn [bind]. unfold Http.raise_for_status. cbn [Http.status].
  apply Z.leb_gt in Hs. rewrite Hs. reflexivity.
Qed.

End Fetch.


(** C2.  A device that answers status 200 with [{"responses": []}], or
    with [{"responses": [{"pc": null}]}]: the body has not the expected
    shape, and [fetch_status] raises ([IndexError], [TypeError]) instead
    of returning the empty sequence. *)
Theorem fetch_status_malformed_shape_raises :
  Sensor.fetch_status Examples.empty_responses Examples.host = Raise IndexError /\
  Sensor.fetch_status
    (Examples.device
       (Examples.answer (JObj [("responses", JArr [JObj [("pc", JNull)]])])))
    Examples.host = Raise TypeError.
Proof. split; reflexivity. Qed.




(** * Further properties of the code *)

(** ** Bytes, hexadecimal text and integers *)

Section HexRoundTrip.

Import Hex.

Lemma fromhex_byte_lower (b : byte) (cs : list ascii) :
  fromhex_chars (digit (N_of_byte b / 16) :: digit (N_of_byte b mod 16) :: cs)
  = (bs <- fromhex_chars cs ;; Ret (b :: bs)).
Proof. destruct b; reflexivity. Qed.

Lemma fromhex_byte_upper (b : byte) (cs : list ascii) :
  fromhex_chars (upper_ascii (digit (N_of_byte b / 16))
                 :: upper_ascii (digit (N_of_byte b mod 16)) :: cs)
  = (bs <- fromhex_chars cs ;; Ret (b :: bs)).
Proof. destruct b; reflexivity. Qed.

Lemma fromhex_bytes_hex (bs : list byte) :
  fromhex_chars (list_ascii_of_string (bytes_hex bs)) = Ret bs.
Proof.
  induction bs as [|b rest IH]; [reflexivity|].
  cbn [bytes_hex list_ascii_of_string].
  rewrite fromhex_byte_lower, IH. reflexivity.
Qed.

Lemma fromhex_upper_bytes_hex (bs : list byte) :
  fromhex_chars (list_ascii_of_string (upper (bytes_hex bs))) = Ret bs.
Proof.
  induction bs as [|b rest IH]; [reflexivity|].
  cbn [bytes_hex upper list_ascii_of_string].
  rewrite fromhex_byte_upper, IH. reflexivity.
Qed.

Lemma length_bytes_hex (bs : list byte) :
  String.length (upper (bytes_hex bs)) = (2 * List.length bs)%nat.
Proof.
  induction bs as [|b rest IH]; [reflexivity|].
  cbn [bytes_hex upper String.length List.length]. rewrite IH. lia.
Qed.

Lemma N_of_byte_of_N (n : N) : (n < 256)%N -> N_of_byte (byte_of_N n) = n.
Proof.
  intros H. unfold N_of_byte, byte_of_N.
  apply Byte.to_of_N.
  rewrite byte_of_ascii_via_N, N_ascii_embedding by exact H. reflexivity.
Qed.

End HexRoundTrip.

Section IntegerRoundTrip.

Import Hex.

Lemma length_little_endian (len : nat) (n : Z) :
  List.length (little_endian len n) = len.
Proof.
  revert n. induction len as [|len IH]; intros n; simpl; [reflexivity|].
  now rewrite IH.
Qed.

Lemma int_from_little_endian (len : nat) (n : Z) :
  0 <= n < 256 ^ Z.of_nat len ->
  int_from_bytes_little (little_endian len n) = n.
Proof.
  revert n. induction len as [|len IH]; intros n Hn.
  - simpl in *. lia.
  - cbn [little_endian int_from_bytes_little].
    rewrite Nat2Z.inj_succ, Z.pow_succ_r in Hn by lia.
    rewrite N_of_byte_of_N.
    + rewrite Z2N.id by (apply Z.mod_pos_bound; lia).
      rewrite IH.
      * pose proof (Z.div_mod n 256). lia.
      * split; [apply Z.div_pos; lia|].
        apply Z.div_lt_upper_bound; lia.
    + change 256%N with (Z.to_N 256).
      apply Z2N.inj_lt; try lia; apply Z.mod_pos_bound; lia.
Qed.

End IntegerRoundTrip.

(** X1.  [bytes.fromhex] undoes [bytes.hex], in lower case and after
    [upper()], for every byte string; the text has two characters a
    byte. *)
Theorem bytes_hex_round_trip (bs : list byte) :
  Hex.fromhex (JStr (Hex.bytes_hex bs)) = Ret bs /\
  Hex.fromhex (JStr (Hex.upper (Hex.bytes_hex bs))) = Ret bs /\
  String.length (Hex.upper (Hex.bytes_hex bs)) = (2 * List.length bs)%nat.
Proof.
  split; [apply fromhex_bytes_hex|].
  split; [apply fromhex_upper_bytes_hex | apply length_bytes_hex].
Qed.

(** X2.  An integer that fits [len] bytes is packed into exactly [len]
    little-endian bytes, and [bytes.fromhex] and [int.from_bytes] read
    their upper-case hex text back as those bytes and that integer; when
    the integer is below 2^53 the decode helper reads the text as the
    integer at scale 1 and as its half at scale 2.  An integer that does
    not fit (negative or too large) raises [OverflowError]. *)
Theorem integer_hex_round_trip (n : Z) (len : nat) :
  (0 <= n < 256 ^ Z.of_nat len ->
   exists bs,
     Hex.int_to_bytes_little n len = Ret bs /\
     List.length bs = len /\
     Hex.fromhex (JStr (Hex.upper (Hex.bytes_hex bs))) = Ret bs /\
     Hex.int_from_bytes_little bs = n /\
     (n < 2 ^ 53 ->
      forall scale, scale = 1 \/ scale = 2 ->
        Sensor._parse_hex_to_int (JStr (Hex.upper (Hex.bytes_hex bs))) scale
        = Sensor.Number (Qred (inject_Z n / inject_Z scale)))) /\
  (n < 0 \/ 256 ^ Z.of_nat len <= n ->
   Hex.int_to_bytes_little n len = Raise OverflowError).
Proof.
  split.
  - intros Hn. exists (Hex.little_endian len n).
    unfold Hex.int_to_bytes_little.
    replace ((0 <=? n) && (n <? 256 ^ Z.of_nat len)) with true
      by (symmetry; apply andb_true_intro; split;
          [apply Z.leb_le | apply Z.ltb_lt]; lia).
    split; [reflexivity|]. split; [apply length_little_endian|].
    split; [apply fromhex_upper_bytes_hex|].
    split; [apply int_from_little_endian; exact Hn|].
    intros _ scale Hs. unfold Sensor._parse_hex_to_int, Hex.fromhex.
    rewrite fromhex_upper_bytes_hex. cbn [bind].
    rewrite int_from_little_endian by exact Hn.
    unfold py_truediv. destruct Hs as [-> | ->]; reflexivity.
  - intros Hn. unfold Hex.int_to_bytes_little.
    replace ((0 <=? n) && (n <? 256 ^ Z.of_nat len)) with false; [reflexivity|].
    symmetry. apply andb_false_iff.
    destruct Hn; [left; apply Z.leb_gt | right; apply Z.ltb_ge]; lia.
Qed.

(** 1000 in two bytes is ["E803"]; 70000 does not fit. *)
Lemma integer_hex_round_trip_witness :
  (0 <= 1000 < 256 ^ Z.of_nat 2 /\ (70000 < 0 \/ 256 ^ Z.of_nat 2 <= 70000)) /\
  (exists bs, Hex.int_to_bytes_little 1000 2 = Ret bs /\
              Hex.int_from_bytes_little bs = 1000 /\
              Sensor._parse_hex_to_int (JStr (Hex.upper (Hex.bytes_hex bs))) 2
              = Sensor.Number (Qred (inject_Z 1000 / inject_Z 2))) /\
  Hex.int_to_bytes_little 70000 2 = Raise OverflowError.
Proof.
  assert (H1 : 0 <= 1000 < 256 ^ Z.of_nat 2) by (simpl; lia).
  assert (H2 : 70000 < 0 \/ 256 ^ Z.of_nat 2 <= 70000) by (right; simpl; lia).
  split; [split; assumption|]. split.
  - destruct (proj1 (integer_hex_round_trip 1000 2) H1)
      as (bs & Hb & _ & _ & Hi & Hd).
    exists bs. split; [exact Hb|]. split; [exact Hi|].
    apply Hd; [reflexivity | right; reflexivity].
  - apply (proj2 (integer_hex_round_trip 70000 2) H2).
Defined.

(** ** Setting a temperature *)

Section Rounding.

Local Open Scope Q_scope.

Lemma py_round_near (x : Q) :
  x - (1 # 2) <= inject_Z (py_round x) /\ inject_Z (py_round x) <= x + (1 # 2).
Proof.
  unfold py_round. cbv zeta.
  pose proof (Qfloor_le x) as Hlo. pose proof (Qlt_floor x) as Hhi.
  rewrite inject_Z_plus in Hhi. change (inject_Z 1) with 1 in Hhi.
  destruct (x - inject_Z (Qfloor x) ?= 1 # 2) eqn:E.
  - apply Qeq_alt in E.
    destruct (Z.even (Qfloor x));
      [|rewrite inject_Z_plus; change (inject_Z 1) with 1]; split; lra.
  - apply Qlt_alt in E. split; lra.
  - apply Qgt_alt in E. rewrite inject_Z_plus. change (inject_Z 1) with 1.
    split; lra.
Qed.

Lemma py_round_between (x : Q) (a b : Z) :
  inject_Z a <= x -> x <= inject_Z b -> (a <= py_round x <= b)%Z.
Proof.
  intros Ha Hb. destruct (py_round_near x) as [Hlo Hhi].
  split.
  - assert (H : inject_Z (a - 1) < inject_Z (py_round x)).
    { unfold Z.sub. rewrite inject_Z_plus, inject_Z_opp.
      change (inject_Z 1) with 1. lra. }
    rewrite <- Zlt_Qlt in H. lia.
  - assert (H : inject_Z (py_round x) < inject_Z (b + 1)).
    { rewrite inject_Z_plus. change (inject_Z 1) with 1. lra. }
    rewrite <- Zlt_Qlt in H. lia.
Qed.

Lemma Qlt_bool_true (x y : Q) : x < y -> Qlt_bool x y = true.
Proof.
  intros H. unfold Qlt_bool.
  assert (E : (x ?= y) = Lt) by (apply Qlt_alt; exact H).
  rewrite E. reflexivity.
Qed.

End Rounding.

Section Clamping.

Local Open Scope Q_scope.

(** The three branches of the clamp. *)
Lemma temperature_hex_clamp (t : Q) :
  exists c,
    16 <= c /\ c <= 30 /\ (16 <= t -> t <= 30 -> c = t) /\
    Climate.temperature_hex t
    = (raw_bytes <- Hex.int_to_bytes_little (py_round (c * 2)) 2 ;;
       Ret (Hex.upper (Hex.bytes_hex raw_bytes))).
Proof.
  unfold Climate.temperature_hex.
  destruct (Qlt_bool t Climate.MIN_TEMP) eqn:Hmin.
  - exists Climate.MIN_TEMP. repeat split; try (unfold Climate.MIN_TEMP; lra).
    intros Hlo _.
    rewrite (Qlt_bool_false (x := t) (y := Climate.MIN_TEMP) Hlo) in Hmin.
    discriminate.
  - assert (Hlo : 16 <= t).
    { destruct (Qlt_le_dec t 16) as [H|H]; [|exact H].
      rewrite (Qlt_bool_true (x := t) (y := Climate.MIN_TEMP) H) in Hmin.
      discriminate. }
    destruct (Qlt_bool Climate.MAX_TEMP t) eqn:Hmax.
    + exists Climate.MAX_TEMP. repeat split; try (unfold Climate.MAX_TEMP; lra).
      intros _ Hhi.
      rewrite (Qlt_bool_false (x := Climate.MAX_TEMP) (y := t) Hhi) in Hmax.
      discriminate.
    + assert (Hhi : t <= 30).
      { destruct (Qlt_le_dec 30 t) as [H|H]; [|exact H].
        rewrite (Qlt_bool_true (x := Climate.MAX_TEMP) (y := t) H) in Hmax.
        discriminate. }
      exists t. repeat split; assumption.
Qed.

End Clamping.

(** X3.  A temperature below 16 is sent as 16 (["2000"]) and one above 30
    as 30 (["3C00"]). *)
Theorem temperature_clamped (t : Q) :
  ((t < 16)%Q ->
   Climate.temperature_hex t = Ret "2000" /\
   Climate.temperature_hex t = Climate.temperature_hex 16) /\
  ((30 < t)%Q ->
   Climate.temperature_hex t = Ret "3C00" /\
   Climate.temperature_hex t = Climate.temperature_hex 30).
Proof.
  split; intros H.
  - assert (E : Climate.temperature_hex t = Ret "2000").
    { unfold Climate.temperature_hex.
      rewrite (Qlt_bool_true (x := t) (y := Climate.MIN_TEMP) H). reflexivity. }
    split; [exact E | rewrite E; reflexivity].
  - assert (E : Climate.temperature_hex t = Ret "3C00").
    { unfold Climate.temperature_hex.
      rewrite (Qlt_bool_false (x := t) (y := Climate.MIN_TEMP))
        by (unfold Climate.MIN_TEMP; lra).
      rewrite (Qlt_bool_true (x := Climate.MAX_TEMP) (y := t) H). reflexivity. }
    split; [exact E | rewrite E; reflexivity].
Qed.

(** 10 degrees and 35 degrees. *)
Lemma temperature_clamped_witness :
  ((10 < 16)%Q /\ (30 < 35)%Q) /\
  Climate.temperature_hex 10 = Ret "2000" /\
  Climate.temperature_hex 35 = Ret "3C00".
Proof.
  assert (H1 : (10 < 16)%Q) by reflexivity.
  assert (H2 : (30 < 35)%Q) by reflexivity.
  split; [split; assumption|]. split.
  - apply (proj1 (temperature_clamped 10) H1).
  - apply (proj2 (temperature_clamped 35) H2).
Defined.

Section Floats.

Local Open Scope Q_scope.

(** A finite temperature: what [temperature_hex] computes, for every
    rational and so for every finite double. *)
Lemma temperature_hex_encodes (t : Q) :
  exists h d,
    Climate.temperature_hex t = Ret h /\
    String.length h = 4%nat /\
    Sensor._parse_hex_to_int (JStr h) 2 = Sensor.Number d /\
    16 <= d /\ d <= 30 /\
    (exists k, d == inject_Z k * (1 # 2)) /\
    (16 <= t -> t <= 30 -> t - (1 # 4) <= d /\ d <= t + (1 # 4)).
Proof.
  destruct (temperature_hex_clamp t) as (c & Hlo & Hhi & Hin & ->).
  assert (Hraw : (32 <= py_round (c * 2) <= 60)%Z).
  { apply py_round_between.
    - change (inject_Z 32) with 32. lra.
    - change (inject_Z 60) with 60. lra. }
  destruct (py_round_near (c * 2)) as [Hn1 Hn2].
  pose proof (raw_values_round_trip Hraw) as Hrt.
  unfold round_trips in Hrt.
  destruct (Hex.int_to_bytes_little (py_round (c * 2)) 2) as [bs|e]; [|discriminate].
  apply andb_prop in Hrt. destruct Hrt as [Hlen Hdec].
  cbn [bind].
  exists (Hex.upper (Hex.bytes_hex bs)),
         (Qred (inject_Z (py_round (c * 2)) / inject_Z 2)).
  split; [reflexivity|].
  split; [apply Nat.eqb_eq; exact Hlen|].
  unfold Sensor._parse_hex_to_int.
  destruct (Hex.fromhex (JStr (Hex.upper (Hex.bytes_hex bs)))) as [bs'|e];
    [|discriminate].
  apply Z.eqb_eq in Hdec. cbn [bind]. rewrite Hdec.
  split; [reflexivity|].
  set (raw := py_round (c * 2)) in *.
  assert (Hd : (Qred (inject_Z raw / inject_Z 2) == inject_Z raw * (1 # 2))).
  { rewrite Qred_correct. reflexivity. }
  assert (H32 : (inject_Z 32 <= inject_Z raw)) by (rewrite <- Zle_Qle; lia).
  assert (H60 : (inject_Z raw <= inject_Z 60)) by (rewrite <- Zle_Qle; lia).
  change (inject_Z 32) with 32 in H32. change (inject_Z 60) with 60 in H60.
  rewrite Hd.
  split; [lra|]. split; [lra|]. split; [exists raw; exact Hd|].
  intros H1 H2. rewrite (Hin H1 H2) in Hn1, Hn2. split; lra.
Qed.

Lemma within_double_range (c : Q) :
  16 <= c -> c <= 30 ->
  Qle_bool DBL_HALF_RANGE c = false /\ Qle_bool c (- DBL_HALF_RANGE) = false.
Proof.
  intros Hlo Hhi.
  assert (Hbig : 30 < DBL_HALF_RANGE) by (vm_compute; reflexivity).
  split.
  - destruct (Qle_bool DBL_HALF_RANGE c) eqn:E; [|reflexivity].
    apply Qle_bool_iff in E. lra.
  - destruct (Qle_bool c (- DBL_HALF_RANGE)) eqn:E; [|reflexivity].
    apply Qle_bool_iff in E. lra.
Qed.

(** On a finite float the general computation is [temperature_hex]. *)
Lemma temperature_payload_finite (t : Q) :
  Climate.temperature_payload (Finite t) = Climate.temperature_hex t.
Proof.
  unfold Climate.temperature_payload, Climate.temperature_hex. cbn [float_lt].
  destruct (Qlt_bool t Climate.MIN_TEMP) eqn:Hmin; [vm_compute; reflexivity|].
  destruct (Qlt_bool Climate.MAX_TEMP t) eqn:Hmax; [vm_compute; reflexivity|].
  assert (Hlo : 16 <= t).
  { destruct (Qlt_le_dec t 16) as [H|H]; [|exact H].
    rewrite (Qlt_bool_true (x := t) (y := Climate.MIN_TEMP) H) in Hmin.
    discriminate. }
  assert (Hhi : t <= 30).
  { destruct (Qlt_le_dec 30 t) as [H|H]; [|exact H].
    rewrite (Qlt_bool_true (x := Climate.MAX_TEMP) (y := t) H) in Hmax.
    discriminate. }
  unfold float_times_two.
  destruct (within_double_range Hlo Hhi) as [-> ->]. reflexivity.
Qed.

Lemma temperature_payload_returns (temp : pyfloat) :
  temp <> NaN -> exists h, Climate.temperature_payload temp = Ret h.
Proof.
  intros Hnan. destruct temp as [t| | |].
  - rewrite temperature_payload_finite.
    destruct (temperature_hex_encodes t) as (h & _ & H & _). eauto.
  - exists "3C00"%string. vm_compute. reflexivity.
  - exists "2000"%string. vm_compute. reflexivity.
  - contradiction.
Qed.

End Floats.

(** X4.  Every float temperature other than NaN can be sent, the
    infinities included: the hex string has four characters and decodes at
    scale 2 to a multiple of 0.5 within [16, 30]; for a finite temperature
    within the bounds the decoded value is at most a quarter of a degree
    away from it.  On NaN both comparisons of the clamp are false and
    [round] raises [ValueError]. *)
Theorem temperature_always_encodable (temp : pyfloat) :
  (temp <> NaN ->
   exists h d,
     Climate.temperature_payload temp = Ret h /\
     String.length h = 4%nat /\
     Sensor._parse_hex_to_int (JStr h) 2 = Sensor.Number d /\
     (16 <= d)%Q /\ (d <= 30)%Q /\
     (exists k, (d == inject_Z k * (1 # 2))%Q) /\
     (forall t, temp = Finite t -> (16 <= t)%Q -> (t <= 30)%Q ->
        (t - (1 # 4) <= d)%Q /\ (d <= t + (1 # 4))%Q)) /\
  Climate.temperature_payload NaN = Raise ValueError /\
  Climate.temperature_payload PosInf = Ret "3C00" /\
  Climate.temperature_payload NegInf = Ret "2000".
Proof.
  split; [|repeat split; vm_compute; reflexivity].
  intros Hnan. destruct temp as [t| | |]; [| | |contradiction].
  - rewrite temperature_payload_finite.
    destruct (temperature_hex_encodes t) as (h & d & H1 & H2 & H3 & H4 & H5 & H6 & H7).
    exists h, d. repeat (split; [assumption|]).
    intros t' Ht Hlo Hhi. inversion Ht; subst t'. apply H7; assumption.
  - exists "3C00"%string, (inject_Z 30).
    split; [vm_compute; reflexivity|]. split; [reflexivity|].
    split; [vm_compute; reflexivity|].
    split; [unfold Qle; simpl; lia|]. split; [unfold Qle; simpl; lia|].
    split; [exists 60; reflexivity|]. intros t Ht. discriminate.
  - exists "2000"%string, (inject_Z 16).
    split; [vm_compute; reflexivity|]. split; [reflexivity|].
    split; [vm_compute; reflexivity|].
    split; [unfold Qle; simpl; lia|]. split; [unfold Qle; simpl; lia|].
    split; [exists 32; reflexivity|]. intros t Ht. discriminate.
Qed.

(** 24.25 degrees is sent as 24 or 24.5. *)
Lemma temperature_always_encodable_witness :
  (Finite (97 # 4) <> NaN /\ (16 <= 97 # 4)%Q /\ (97 # 4 <= 30)%Q) /\
  exists h d,
    Climate.temperature_payload (Finite (97 # 4)) = Ret h /\
    ((97 # 4) - (1 # 4) <= d)%Q /\ (d <= (97 # 4) + (1 # 4))%Q.
Proof.
  assert (H0 : Finite (97 # 4) <> NaN) by discriminate.
  assert (H1 : (16 <= 97 # 4)%Q) by (unfold Qle; simpl; lia).
  assert (H2 : (97 # 4 <= 30)%Q) by (unfold Qle; simpl; lia).
  split; [repeat split; assumption|].
  destruct (proj1 (temperature_always_encodable (Finite (97 # 4))) H0)
    as (h & d & Hh & _ & _ & _ & _ & _ & Hnear).
  exists h, d. split; [exact Hh | exact (Hnear _ eq_refl H1 H2)].
Defined.

(** ** Navigation *)

Section MoreNavigation.

Lemma children_get_by_path (data : json) (group : string) (v : json) :
  Climate.children_of data group = Ret v ->
  Sensor._get_by_path data ["e_1002"; group] = Ret v.
Proof.
  unfold Sensor._get_by_path, Climate.children_of. cbn [Sensor.descend].
  destruct (next_pn data "e_1002") as [level1|e1]; cbn [bind]; [|discriminate].
  destruct (py_get level1 "pch" (JArr [])) as [pch1|e2]; cbn [bind]; [|discriminate].
  destruct (next_pn pch1 group) as [level2|e3]; cbn [bind]; [|discriminate].
  destruct (py_get level2 "pch" (JArr [])) as [pch2|e4]; cbn [bind]; [|discriminate].
  intros H. inversion H; subst. reflexivity.
Qed.

Lemma next_pn_missing (node : json) (seg : string) :
  level_has node seg = false ->
  exists e, next_pn node seg = Raise e /\ In e navigation_errors.
Proof.
  intros H. destruct (next_pn node seg) as [item|e] eqn:E.
  - apply next_pn_found in E. congruence.
  - exists e. split; [reflexivity | eapply next_pn_raises; eauto].
Qed.

Lemma children_missing (data : json) (group : string) :
  level_has data "e_1002" = false ->
  (exists e, Climate.children_of data group = Raise e) /\
  Sensor._get_by_path data ["e_1002"; group] = Ret (JArr []).
Proof.
  intros H. destruct (next_pn_missing _ _ H) as (e & He & Hin).
  unfold Climate.children_of, Sensor._get_by_path. cbn [Sensor.descend].
  rewrite He. cbn [bind]. split; [eauto|].
  unfold navigation_errors in Hin; simpl in Hin.
  destruct Hin as [<- | [<- | [<- | []]]]; reflexivity.
Qed.

Lemma first_pn_skips (seg : string) (before : list json) (rest : list json) :
  forallb (other_node seg) before = true ->
  first_pn (before ++ rest) seg = first_pn rest seg.
Proof.
  induction before as [|x before IH]; intros H; [reflexivity|].
  cbn [forallb] in H. apply andb_prop in H. destruct H as [Hx Hb].
  cbn [app first_pn].
  destruct x; try discriminate. cbn [py_get bind].
  unfold other_node, named in Hx.
  destruct (dict_lookup fields "pn") as [[| | | |s| |]|]; cbn [py_eq_str];
    try (apply IH; exact Hb).
  cbn [negb] in Hx. destruct (String.eqb s seg); [discriminate|].
  apply IH; exact Hb.
Qed.

End MoreNavigation.

(** X5.  Navigation takes the first node that bears the requested name:
    when the nodes before it are dicts with other names, whatever follows
    it (a second node of the same name, a malformed entry) is not looked
    at, and the result is that node's [pch], or the empty sequence when it
    has none. *)
Theorem navigation_first_match (seg : string) (before after : list json)
    (fields : list (string * json)) :
  forallb (other_node seg) before = true ->
  named seg (JObj fields) = true ->
  Sensor._get_by_path (JArr (before ++ JObj fields :: after)) [seg]
  = Ret (match dict_lookup fields "pch" with Some v => v | None => JArr [] end).
Proof.
  intros Hb Hn.
  unfold Sensor._get_by_path. cbn [Sensor.descend].
  unfold next_pn. cbn [py_iter bind].
  rewrite (@first_pn_skips seg before (JObj fields :: after) Hb). cbn [first_pn py_get bind].
  unfold named in Hn.
  destruct (dict_lookup fields "pn") as [[| | | |s| |]|]; try discriminate.
  cbn [py_eq_str]. rewrite Hn. reflexivity.
Qed.

(** Two nodes named e_1002: the first one is taken. *)
Lemma navigation_first_match_witness :
  (forallb (other_node "e_1002") [Examples.group "e_0001" []] = true /\
   named "e_1002" (JObj [("pn", JStr "e_1002"); ("pch", JArr [Examples.leaf "a" "01"])])
   = true) /\
  Sensor._get_by_path
    (JArr [Examples.group "e_0001" [];
           Examples.group "e_1002" [Examples.leaf "a" "01"];
           Examples.group "e_1002" [Examples.leaf "b" "02"];
           JInt 7])
    ["e_1002"]
  = Ret (JArr [Examples.leaf "a" "01"]).
Proof.
  split; [split; reflexivity|].
  apply (@navigation_first_match "e_1002" [Examples.group "e_0001" []]
           [Examples.group "e_1002" [Examples.leaf "b" "02"]; JInt 7]
           [("pn", JStr "e_1002"); ("pch", JArr [Examples.leaf "a" "01"])]);
    reflexivity.
Defined.

(** X6.  A tree none of whose top-level nodes is named e_1002 (the empty
    tree included) reads as nothing on both surfaces: each of the six
    telemetry values is [None], the control entity is off with power "00",
    and has no current temperature, target temperature or fan mode. *)
Theorem missing_subtree_reads_nothing (data : json) :
  level_has data "e_1002" = false ->
  (forall s, Sensor._get_value s data = Ret Sensor.NoValue) /\
  Climate._get_power_value data = JStr "00" /\
  Climate.hvac_mode data = "off" /\
  Climate.current_temperature data = None /\
  Climate.target_temperature data = None /\
  Climate.fan_mode data = None.
Proof.
  intros H.
  assert (Hp : forall g, Sensor._get_by_path data ["e_1002"; g] = Ret (JArr []))
    by (intros g; apply (@children_missing data g H)).
  assert (Hc : forall g, exists e, Climate.children_of data g = Raise e)
    by (intros g; apply (@children_missing data g H)).
  split.
  - intros s. destruct s; unfold Sensor._get_value; rewrite Hp; reflexivity.
  - assert (Hpow : Climate._get_power_value data = JStr "00").
    { unfold Climate._get_power_value.
      destruct (Hc "e_A002") as [e ->]. reflexivity. }
    split; [exact Hpow|]. split.
    + unfold Climate.hvac_mode. cbv zeta. rewrite Hpow. reflexivity.
    + unfold Climate.current_temperature, Climate.target_temperature, Climate.fan_mode.
      destruct (Hc "e_A00B") as [e1 ->]. destruct (Hc "e_3001") as [e2 ->].
      repeat split.
Qed.

(** A tree that only holds another subtree. *)
Lemma missing_subtree_reads_nothing_witness :
  level_has (JArr [Examples.group "e_1003" [Examples.leaf "p_01" "01"]]) "e_1002" = false /\
  Climate.hvac_mode (JArr [Examples.group "e_1003" [Examples.leaf "p_01" "01"]]) = "off" /\
  Sensor._get_value Sensor.DaikinPowerSensor
    (JArr [Examples.group "e_1003" [Examples.leaf "p_01" "01"]]) = Ret Sensor.NoValue.
Proof.
  assert (H : level_has (JArr [Examples.group "e_1003" [Examples.leaf "p_01" "01"]])
                "e_1002" = false) by reflexivity.
  split; [exact H|].
  destruct (missing_subtree_reads_nothing _ H) as (Hs & _ & Hm & _).
  split; [exact Hm | apply Hs].
Defined.

(** ** The two surfaces read the same tree *)

Section Agreement.

Lemma descend_children (data : json) (group : string) :
  Sensor.descend data ["e_1002"; group]
  = (v <- Climate.children_of data group ;; Ret v).
Proof.
  unfold Climate.children_of. cbn [Sensor.descend].
  destruct (next_pn data "e_1002") as [level1|e1]; cbn [bind]; [|reflexivity].
  destruct (py_get level1 "pch" (JArr [])) as [pch1|e2]; cbn [bind]; [|reflexivity].
  destruct (next_pn pch1 group) as [level2|e3]; cbn [bind]; reflexivity.
Qed.

(** The telemetry helper returns what the control entity's walk finds, and
    the empty sequence where that walk fails. *)
Lemma get_by_path_of_children (data : json) (group : string) :
  Sensor._get_by_path data ["e_1002"; group]
  = Ret (match Climate.children_of data group with
         | Ret v => v
         | Raise _ => JArr []
         end).
Proof.
  unfold Sensor._get_by_path.
  pose proof (@descend_raises ["e_1002"; group] data) as Hr.
  rewrite descend_children in *.
  destruct (Climate.children_of data group) as [v|e]; cbn [bind] in *.
  - reflexivity.
  - specialize (Hr e eq_refl). unfold navigation_errors in Hr; simpl in Hr.
    destruct Hr as [<- | [<- | [<- | []]]]; reflexivity.
Qed.

Lemma Qred_over_one (n : Z) : Qred (inject_Z n / inject_Z 1) = inject_Z n.
Proof.
  transitivity (Qred (inject_Z n)).
  - apply Qred_complete. unfold Qdiv. change (/ inject_Z 1)%Q with 1%Q.
    apply Qmult_1_r.
  - apply Qcanon.Qred_identity. simpl. apply Z.gcd_1_r.
Qed.

End Agreement.

(** X7.  The two surfaces decode temperatures alike, for every tree, as
    long as the values are small enough for a double to hold them exactly
    (which any payload of up to six bytes is): for a number below 2^52 the
    setpoint sensor reads it exactly when the control entity's target
    temperature is that number, and for an integer below 2^53 the indoor
    temperature sensor reads it exactly when the control entity's current
    temperature is that integer. *)
Theorem temperatures_agree (data : json) :
  (forall q, (q < inject_Z (2 ^ 52))%Q ->
      (Sensor._get_value Sensor.DaikinSetpointSensor data = Ret (Sensor.Number q)
       <-> Climate.target_temperature data = Some q)) /\
  (forall n, n < 2 ^ 53 ->
      (Sensor._get_value Sensor.DaikinIndoorTempSensor data
       = Ret (Sensor.Number (inject_Z n))
       <-> Climate.current_temperature data = Some n)).
Proof.
  split.
  - intros q _. unfold Sensor._get_value, Climate.target_temperature.
    rewrite get_by_path_of_children. cbn [bind].
    destruct (Climate.children_of data "e_3001") as [pch|e];
      [|simpl; split; discriminate].
    destruct pch as [| | | |s|items|fields];
      try (simpl; split; discriminate).
    + destruct s as [|a [|b [|c s]]]; simpl; split; discriminate.
    + destruct items as [|a [|b [|c items]]]; try (simpl; split; discriminate).
      destruct c; try (simpl; split; discriminate).
      cbn. unfold Sensor._parse_hex_to_int, py_truediv.
      destruct (Hex.fromhex _) as [bs|e]; cbn;
        split; intros H; inversion H; reflexivity.
    + cbn. match goal with |- context [if ?c then _ else _] => destruct c end;
        split; discriminate.
  - intros n _. unfold Sensor._get_value, Climate.current_temperature.
    rewrite get_by_path_of_children. cbn [bind].
    destruct (Climate.children_of data "e_A00B") as [pch|e];
      [|simpl; split; discriminate].
    destruct pch as [| |k| |s|items|fields];
      try (simpl; split; discriminate).
    + destruct b; simpl; split; discriminate.
    + cbn. match goal with |- context [if ?c then _ else _] => destruct c end;
        split; discriminate.
    + cbn. match goal with |- context [if ?c then _ else _] => destruct c end;
        split; discriminate.
    + destruct s as [|a s]; simpl; split; discriminate.
    + destruct items as [|a items]; try (simpl; split; discriminate).
      destruct a; try (simpl; split; discriminate).
      cbn [bind py_truthy py_index nth_error py_get].
      unfold Sensor._parse_hex_to_int, py_truediv.
      destruct (Hex.fromhex _) as [bs|e]; cbn [bind Z.eqb Climate.or_default].
      * rewrite Qred_over_one. split; intros H; inversion H; reflexivity.
      * split; discriminate.
    + destruct fields as [|f fields]; simpl; split; discriminate.
Qed.

Section Labels.

Lemma chars_nth (s : string) (i : nat) (x : json) :
  nth_error (chars s) i = Some x -> exists c, x = JStr c.
Proof.
  intros H. apply nth_error_In in H. unfold chars in H.
  apply in_map_iff in H. destruct H as (c & <- & _). eauto.
Qed.

Lemma nth_error_guard {A} (l : list A) (i : nat) :
  nth_error l i = None -> (S i <=? List.length l)%nat = false.
Proof.
  intros H. apply Nat.leb_gt. apply nth_error_None in H. lia.
Qed.

Lemma fan_label_known (hex label : string) :
  dict_lookup Climate.FAN_SPEED_MAP hex = Some label -> In label Climate.fan_modes.
Proof.
  unfold Climate.FAN_SPEED_MAP. intros H.
  by_table H; try discriminate; inversion H; subst; vm_compute; tauto.
Qed.

Lemma unknown_is_no_fan_label (v : json) : ~ In (Sensor.unknown v) Climate.fan_modes.
Proof.
  unfold Sensor.unknown.
  change Climate.fan_modes with ["1"; "2"; "3"; "4"; "5"; "Auto"; "Quiet"].
  cbn [In String.append].
  intros H. repeat (destruct H as [H|H]; [discriminate|]). exact H.
Qed.

Lemma mode_known (hex mode : string) :
  dict_lookup Climate.MODE_MAP hex = Some mode ->
  In mode Climate.SUPPORTED_HVAC_MODES /\
  exists label, dict_lookup Sensor.MODE_MAP hex = Some label.
Proof.
  unfold Climate.MODE_MAP. intros H.
  by_table H; try discriminate; inversion H; subst;
    (split; [vm_compute; tauto | eexists; reflexivity]).
Qed.

End Labels.

(** X8.  The two surfaces read the fan alike, for every tree: the control
    entity's fan mode is a label exactly when the telemetry fan speed is
    that label and the label is one of the declared fan modes; so the
    control entity never reports an undeclared fan mode, and it has no
    value exactly where the telemetry shows an unknown code, nothing, or
    fails. *)
Theorem fan_readings_agree (data : json) (label : string) :
  Climate.fan_mode data = Some label <->
  (Sensor._get_value Sensor.DaikinFanSpeedSensor data = Ret (Sensor.Text label) /\
   In label Climate.fan_modes).
Proof.
  unfold Sensor._get_value, Climate.fan_mode.
  rewrite get_by_path_of_children. cbn [bind].
  destruct (Climate.children_of data "e_3001") as [pch|e];
    [|simpl; split; [discriminate | intros [H _]; discriminate]].
  destruct pch as [| | | |s|items|fields];
    try (simpl; split; [discriminate | intros [H _]; discriminate]).
  - cbn [bind py_len py_index Climate.or_default].
    destruct (nth_error (chars s) 8) as [x|] eqn:E.
    + destruct (chars_nth _ _ E) as [c ->]. cbn [bind py_get Climate.or_default].
      destruct (9 <=? String.length s)%nat;
        split; [discriminate | intros [H _]; discriminate
               | discriminate | intros [H _]; discriminate].
    + cbn [bind Climate.or_default].
      destruct (9 <=? String.length s)%nat;
        split; [discriminate | intros [H _]; discriminate
               | discriminate | intros [H _]; discriminate].
  - cbn [bind py_len py_index Climate.or_default].
    destruct (nth_error items 8) as [leaf|] eqn:E.
    + rewrite (nth_error_length_le _ _ E). cbn [bind].
      destruct leaf as [| | | | | |leaf_fields];
        try (simpl; split; [discriminate | intros [H _]; discriminate]).
      cbn [bind py_get]. unfold map_get.
      generalize (match dict_lookup leaf_fields "pv" with
                  | Some x => x
                  | None => JStr ""
                  end).
      intros hexstr.
      assert (Hunknown :
        None (A := string) = Some label <->
        Ret (Sensor.Text (Sensor.unknown hexstr)) = Ret (Sensor.Text label) /\
        In label Climate.fan_modes).
      { split; [discriminate|]. intros [H Hin]. inversion H; subst.
        exfalso. exact (unknown_is_no_fan_label Hin). }
      destruct hexstr as [| | | |code| |];
        cbn [map_get_opt bind Climate.or_default];
        try (split; [discriminate | intros [H _]; discriminate]);
        try (split; [discriminate | apply Hunknown]).
      change Sensor.FAN_SPEED_MAP with Climate.FAN_SPEED_MAP.
      destruct (dict_lookup Climate.FAN_SPEED_MAP code) as [l|] eqn:El.
      * split.
        -- intros H. inversion H; subst. split; [reflexivity|].
           eapply fan_label_known; eauto.
        -- intros [H _]. inversion H; subst. reflexivity.
      * split; [discriminate | apply Hunknown].
    + rewrite (@nth_error_guard _ items 8 E). cbn [bind Climate.or_default].
      split; [discriminate | intros [H _]; discriminate].
  - cbn. match goal with |- context [if ?c then _ else _] => destruct c end;
      split; [discriminate | intros [H _]; discriminate
             | discriminate | intros [H _]; discriminate].
Qed.

(** X9.  The operation mode the control entity reads is, for every tree,
    one of the six declared modes. *)
Theorem hvac_mode_is_supported (data : json) :
  In (Climate.hvac_mode data) Climate.SUPPORTED_HVAC_MODES.
Proof.
  unfold Climate.hvac_mode. cbv zeta.
  destruct (negb (py_eq_str (Climate._get_power_value data) "01"));
    [left; reflexivity|].
  destruct (Climate.children_of data "e_3001") as [pch|e];
    cbn [bind Climate.or_default]; [|left; reflexivity].
  destruct (py_index pch 0) as [leaf|e];
    cbn [bind Climate.or_default]; [|left; reflexivity].
  destruct (py_get leaf "pv" (JStr "")) as [mode_hex|e];
    cbn [bind Climate.or_default]; [|left; reflexivity].
  unfold map_get.
  destruct mode_hex as [| | | |code| |];
    cbn [map_get_opt bind Climate.or_default]; try (left; reflexivity).
  destruct (dict_lookup Climate.MODE_MAP code) as [mode|] eqn:E;
    [|left; reflexivity].
  apply (mode_known _ E).
Qed.

(** X10.  Whenever the control entity reads a mode other than off, the
    telemetry of the same tree shows the power state "On" and, as
    operation mode, the label of the very code the control entity
    mapped. *)
Theorem running_mode_agrees (data : json) :
  Climate.hvac_mode data <> "off" ->
  Sensor._get_value Sensor.DaikinPowerSensor data = Ret (Sensor.Text "On") /\
  exists code label,
    dict_lookup Climate.MODE_MAP code = Some (Climate.hvac_mode data) /\
    dict_lookup Sensor.MODE_MAP code = Some label /\
    Sensor._get_value Sensor.DaikinModeSensor data = Ret (Sensor.Text label).
Proof.
  intros Hon.
  assert (Hp : Climate._get_power_value data = JStr "01").
  { destruct (py_eq_str (Climate._get_power_value data) "01") eqn:E.
    - apply py_eq_str_true in E. exact E.
    - exfalso. apply Hon. unfold Climate.hvac_mode. cbv zeta.
      rewrite E. reflexivity. }
  split.
  - unfold Climate._get_power_value in Hp.
    unfold Sensor._get_value. rewrite get_by_path_of_children.
    destruct (Climate.children_of data "e_A002") as [pch|e];
      cbn [bind Climate.or_default] in Hp; [|discriminate].
    destruct pch as [| | | |s|items|fields]; try discriminate.
    + destruct s as [|a s]; discriminate.
    + destruct items as [|leaf rest]; [discriminate|].
      destruct leaf as [| | | | | |leaf_fields]; try discriminate.
      cbn [bind py_index nth_error py_get Climate.or_default] in Hp.
      cbn [bind py_truthy py_index nth_error py_get].
      destruct (dict_lookup leaf_fields "pv") as [x|]; [|discriminate].
      subst x. reflexivity.
  - unfold Climate.hvac_mode in *. cbv zeta in *. rewrite Hp in *.
    cbn [py_eq_str String.eqb Ascii.eqb Bool.eqb negb andb] in *.
    unfold Sensor._get_value. rewrite get_by_path_of_children.
    destruct (Climate.children_of data "e_3001") as [pch|e];
      cbn [bind Climate.or_default] in *; [|exfalso; apply Hon; reflexivity].
    destruct pch as [| | | |s|items|fields];
      try (exfalso; apply Hon; reflexivity).
    + destruct s as [|a s]; exfalso; apply Hon; reflexivity.
    + destruct items as [|leaf rest]; [exfalso; apply Hon; reflexivity|].
      destruct leaf as [| | | | | |leaf_fields];
        try (exfalso; apply Hon; reflexivity).
      cbn [bind py_index nth_error py_get py_truthy] in *.
      revert Hon.
      generalize (match dict_lookup leaf_fields "pv" with
                  | Some x => x
                  | None => JStr ""
                  end).
      intros mode_hex Hon. unfold map_get in *.
      destruct mode_hex as [| | | |code| |];
        cbn [map_get_opt bind Climate.or_default] in *;
        try (exfalso; apply Hon; reflexivity).
      destruct (dict_lookup Climate.MODE_MAP code) as [mode|] eqn:E;
        [|exfalso; apply Hon; reflexivity].
      destruct (mode_known _ E) as [_ [label El]].
      exists code, label. rewrite El. repeat split; assumption.
Qed.

(** A tree that is on and cooling. *)
Lemma running_mode_agrees_witness :
  Climate.hvac_mode (Examples.tree "01" "0200" "0A00") <> "off" /\
  Sensor._get_value Sensor.DaikinPowerSensor (Examples.tree "01" "0200" "0A00")
  = Ret (Sensor.Text "On").
Proof.
  assert (H : Climate.hvac_mode (Examples.tree "01" "0200" "0A00") <> "off")
    by discriminate.
  split; [exact H|].
  apply (proj1 (@running_mode_agrees _ H)).
Defined.

(** ** Writes *)

Section Writes.

Lemma send_and_refresh_effect (host : string) (reqs : list json) (w : Climate.world) :
  write_effect host reqs w (Climate.send_and_refresh host (Climate.requests reqs) w).
Proof.
  unfold write_effect, Climate.send_and_refresh, Climate.put. cbv zeta.
  destruct (Http.put (Climate.session w) _ _) as [resp|e]; cbn [bind].
  - unfold Http.raise_for_status.
    destruct (400 <=? Http.status resp); repeat split.
  - repeat split.
Qed.

Lemma mode_reverse_lookup (code mode : string) :
  dict_lookup Climate.MODE_MAP code = Some mode ->
  String.eqb mode Climate.HVAC_MODE_OFF = false /\
  dict_lookup Climate.MODE_REVERSE_MAP mode = Some code.
Proof.
  unfold Climate.MODE_MAP. intros H.
  by_table H; try discriminate; inversion H; subst; split; reflexivity.
Qed.

Lemma reports_read (data : json) (group : string) (i : nat) (pv : string) (d : json) :
  reports data group i pv ->
  (pch <- Climate.children_of data group ;;
   leaf <- py_index pch i ;;
   py_get leaf "pv" d) = Ret (JStr pv).
Proof.
  intros (items & fields & Hpath & Hnth & Hpv).
  destruct items as [|x xs]; [destruct i; discriminate|].
  rewrite (get_by_path_children _ _ Hpath).
  cbn [bind py_index]. rewrite Hnth. cbn [bind py_get]. rewrite Hpv. reflexivity.
Qed.

End Writes.

(** X11.  Every write with a recognised input issues exactly one PUT to
    http://<host>/dsiot/multireq: for off a single request setting power
    to "00"; for another mode two requests in this order, power "01" and
    the code of the mode; for a fan label its code at p_0A; for a
    temperature that is not NaN its hex string at p_03.  The write logs an
    error when the PUT raises or answers 400 and above and an info record
    otherwise, and in every case asks the polling loop for one refresh.  A
    call without a temperature does nothing, and a call with NaN raises
    [ValueError] before anything is sent or requested. *)
Theorem writes_put_once_and_refresh (host : string) (w : Climate.world) :
  write_effect host [Climate.set_request "e_A002" "p_01" "00"] w
    (Climate.async_set_hvac_mode host "off" w) /\
  (forall code mode,
      dict_lookup Climate.MODE_MAP code = Some mode ->
      write_effect host
        [Climate.set_request "e_A002" "p_01" "01";
         Climate.set_request "e_3001" "p_01" code]
        w (Climate.async_set_hvac_mode host mode w)) /\
  (forall code label,
      dict_lookup Climate.FAN_SPEED_MAP code = Some label ->
      write_effect host [Climate.set_request "e_3001" "p_0A" code] w
        (Climate.async_set_fan_mode host label w)) /\
  (forall temp, temp <> NaN ->
      exists h w',
        Climate.temperature_payload temp = Ret h /\
        Climate.async_set_temperature host (Some temp) w = Ret w' /\
        write_effect host [Climate.set_request "e_3001" "p_03" h] w w') /\
  Climate.async_set_temperature host (Some NaN) w = Raise ValueError /\
  Climate.async_set_temperature host None w = Ret w.
Proof.
  split; [apply send_and_refresh_effect|].
  split; [|split; [|split; [|split; [vm_compute; reflexivity | reflexivity]]]].
  - intros code mode H. unfold Climate.async_set_hvac_mode.
    destruct (mode_reverse_lookup _ H) as [Hoff Hrev].
    rewrite Hoff, Hrev. apply send_and_refresh_effect.
  - intros code label H. unfold Climate.async_set_fan_mode.
    rewrite (fan_reverse_lookup _ H). apply send_and_refresh_effect.
  - intros temp Hnan.
    destruct (temperature_payload_returns Hnan) as (h & Hh).
    unfold Climate.async_set_temperature. rewrite Hh. cbn [bind].
    eexists. eexists.
    split; [reflexivity|]. split; [reflexivity|].
    apply send_and_refresh_effect.
Qed.

(** Switching to cool. *)
Lemma writes_put_once_and_refresh_witness :
  dict_lookup Climate.MODE_MAP "0200" = Some "cool" /\
  Climate.sent (Climate.async_set_hvac_mode Examples.host "cool"
                  (Examples.idle Examples.timing_out))
  = [("http://192.168.1.10/dsiot/multireq",
      Climate.requests [Climate.set_request "e_A002" "p_01" "01";
                        Climate.set_request "e_3001" "p_01" "0200"])].
Proof.
  split; [reflexivity|].
  apply (proj1 (proj2 (writes_put_once_and_refresh Examples.host
                         (Examples.idle Examples.timing_out)))
           "0200" "cool" eq_refl).
Defined.

(** X12.  What a write sends reads back.  For every tree that reports, at
    the position the control entity reads, the very payload a write sends:
    the code sent for a fan label reads as that label; with power "01"
    reported, the code sent for a mode reads as that mode, and with power
    "00" the mode reads off; the hex string sent for a half-degree
    temperature within [16, 30] reads as that temperature. *)
Theorem written_values_read_back (data : json) :
  (forall label, In label Climate.fan_modes ->
     exists code,
       dict_lookup Climate.FAN_SPEED_REVERSE_MAP label = Some code /\
       (reports data "e_3001" 8 code -> Climate.fan_mode data = Some label)) /\
  (forall mode, In mode Climate.SUPPORTED_HVAC_MODES -> mode <> "off" ->
     exists code,
       dict_lookup Climate.MODE_REVERSE_MAP mode = Some code /\
       (reports data "e_A002" 0 "01" -> reports data "e_3001" 0 code ->
        Climate.hvac_mode data = mode)) /\
  (reports data "e_A002" 0 "00" -> Climate.hvac_mode data = "off") /\
  (forall t k h,
     (t == inject_Z k * (1 # 2))%Q -> (16 <= t)%Q -> (t <= 30)%Q ->
     Climate.temperature_hex t = Ret h ->
     reports data "e_3001" 2 h ->
     exists d, Climate.target_temperature data = Some d /\ (d == t)%Q).
Proof.
  split; [|split; [|split]].
  - intros label Hin.
    assert (Hcode : exists code,
               dict_lookup Climate.FAN_SPEED_REVERSE_MAP label = Some code /\
               dict_lookup Climate.FAN_SPEED_MAP code = Some label).
    { vm_compute in Hin.
      repeat (destruct Hin as [<- | Hin]; [eexists; split; reflexivity|]).
      destruct Hin. }
    destruct Hcode as (code & Hrev & Hmap). exists code. split; [exact Hrev|].
    intros Hr. unfold Climate.fan_mode.
    pose proof (reports_read (JStr "") Hr) as Hread.
    destruct (Climate.children_of data "e_3001") as [pch|e]; [|discriminate].
    cbn [bind] in *.
    destruct (py_index pch 8) as [leaf|e]; [|discriminate]. cbn [bind] in *.
    rewrite Hread. cbn [bind map_get_opt Climate.or_default]. exact Hmap.
  - intros mode Hin Hon.
    assert (Hcode : exists code,
               dict_lookup Climate.MODE_REVERSE_MAP mode = Some code /\
               dict_lookup Climate.MODE_MAP code = Some mode).
    { vm_compute in Hin. destruct Hin as [<- | Hin]; [contradiction Hon; reflexivity|].
      repeat (destruct Hin as [<- | Hin]; [eexists; split; reflexivity|]).
      destruct Hin. }
    destruct Hcode as (code & Hrev & Hmap). exists code. split; [exact Hrev|].
    intros Hpower Hmode. unfold Climate.hvac_mode, Climate._get_power_value.
    cbv zeta. rewrite (reports_read (JStr "00") Hpower).
    pose proof (reports_read (JStr "") Hmode) as Hread.
    cbn [Climate.or_default py_eq_str String.eqb Ascii.eqb Bool.eqb negb andb].
    destruct (Climate.children_of data "e_3001") as [pch|e]; [|discriminate].
    cbn [bind] in *.
    destruct (py_index pch 0) as [leaf|e]; [|discriminate]. cbn [bind] in *.
    rewrite Hread. unfold map_get. cbn [bind map_get_opt]. rewrite Hmap. reflexivity.
  - intros Hpower. unfold Climate.hvac_mode, Climate._get_power_value.
    cbv zeta. rewrite (reports_read (JStr "00") Hpower). reflexivity.
  - intros t k h Ht Hlo Hhi Hhex Hr.
    assert (Ht2 : (t * 2 == inject_Z k)%Q) by (rewrite Ht; unfold Qeq; simpl; lia).
    assert (Hk : 0 <= k < 256 ^ Z.of_nat 2).
    { assert (H1 : (inject_Z 32 <= inject_Z k)%Q).
      { rewrite <- Ht2. change (inject_Z 32) with 32%Q. lra. }
      assert (H2 : (inject_Z k <= inject_Z 60)%Q).
      { rewrite <- Ht2. change (inject_Z 60) with 60%Q. lra. }
      rewrite <- Zle_Qle in H1, H2. simpl. lia. }
    unfold Climate.temperature_hex in Hhex.
    rewrite (Qlt_bool_false (x := t) (y := Climate.MIN_TEMP) Hlo) in Hhex.
    rewrite (Qlt_bool_false (x := Climate.MAX_TEMP) (y := t) Hhi) in Hhex.
    rewrite (py_round_integer Ht2) in Hhex.
    unfold Hex.int_to_bytes_little in Hhex.
    replace ((0 <=? k) && (k <? 256 ^ Z.of_nat 2)) with true in Hhex
      by (symmetry; apply andb_true_intro; split;
          [apply Z.leb_le | apply Z.ltb_lt]; lia).
    assert (Hh : h = Hex.upper (Hex.bytes_hex (Hex.little_endian 2 k)))
      by (cbn [bind] in Hhex; congruence).
    clear Hhex. subst h.
    unfold Climate.target_temperature.
    pose proof (reports_read (JStr "") Hr) as Hread.
    destruct (Climate.children_of data "e_3001") as [pch|e]; [|discriminate].
    cbn [bind] in *.
    destruct (py_index pch 2) as [leaf|e]; [|discriminate]. cbn [bind] in *.
    rewrite Hread. cbn [bind]. unfold Hex.fromhex.
    rewrite fromhex_upper_bytes_hex. cbn [bind Climate.or_default].
    rewrite int_from_little_endian by exact Hk.
    eexists. split; [reflexivity|].
    rewrite Qred_correct, Ht. unfold Qeq; simpl. lia.
Qed.

(** The healthy device's tree reports "0A00" as fan code; "Auto" is sent
    as "0A00". *)
Lemma written_values_read_back_witness :
  (In "Auto" Climate.fan_modes /\
   reports (Examples.tree "01" "0200" "0A00") "e_3001" 8 "0A00") /\
  Climate.fan_mode (Examples.tree "01" "0200" "0A00") = Some "Auto".
Proof.
  assert (Hin : In "Auto" Climate.fan_modes) by (vm_compute; tauto).
  assert (Hr : reports (Examples.tree "01" "0200" "0A00") "e_3001" 8 "0A00").
  { eexists. eexists. split; [reflexivity|]. split; reflexivity. }
  split; [split; assumption|].
  destruct (proj1 (written_values_read_back (Examples.tree "01" "0200" "0A00"))
              "Auto" Hin) as (code & Hcode & Hread).
  vm_compute in Hcode. inversion Hcode; subst code.
  exact (Hread Hr).
Defined.

(** ** Telemetry of a well-formed tree *)

Section StatusTrees.

Lemma status_first_pn (seg : string) (items : list json) :
  Forall status_node items ->
  (exists item, first_pn items seg = Ret item /\ status_node item) \/
  first_pn items seg = Raise StopIteration.
Proof.
  induction 1 as [|x rest Hx Hrest IH]; [right; reflexivity|].
  cbn [first_pn]. destruct Hx as [fields Hpv Hpch]. cbn [py_get bind].
  destruct (py_eq_str _ seg).
  - left. eexists. split; [reflexivity|]. constructor; assumption.
  - exact IH.
Qed.

Lemma status_children (item : json) :
  status_node item ->
  exists items, py_get item "pch" (JArr []) = Ret (JArr items) /\
                Forall status_node items.
Proof.
  intros [fields Hpv Hpch]. cbn [py_get].
  destruct (dict_lookup fields "pch") as [v|] eqn:E.
  - destruct (Hpch v eq_refl) as (items & -> & Hitems). eauto.
  - exists []. split; [reflexivity | constructor].
Qed.

Lemma status_pv (leaf : json) :
  status_node leaf -> exists s, py_get leaf "pv" (JStr "") = Ret (JStr s).
Proof.
  intros [fields Hpv Hpch]. cbn [py_get].
  destruct (dict_lookup fields "pv") as [v|] eqn:E.
  - destruct (Hpv v eq_refl) as (s & ->). eauto.
  - eauto.
Qed.

Lemma status_descend (path : list string) (items : list json) :
  Forall status_node items ->
  (exists items', Sensor.descend (JArr items) path = Ret (JArr items') /\
                  Forall status_node items') \/
  Sensor.descend (JArr items) path = Raise StopIteration.
Proof.
  revert items. induction path as [|seg rest IH]; intros items Hitems.
  - left. exists items. split; [reflexivity | exact Hitems].
  - cbn [Sensor.descend]. unfold next_pn. cbn [py_iter bind].
    destruct (status_first_pn seg Hitems) as [(item & -> & Hitem) | ->];
      [|right; reflexivity].
    cbn [bind]. destruct (status_children Hitem) as (items' & -> & Hitems').
    cbn [bind]. apply IH. exact Hitems'.
Qed.

Lemma status_get_by_path (data : json) (path : list string) :
  status_tree data ->
  exists items, Sensor._get_by_path data path = Ret (JArr items) /\
                Forall status_node items.
Proof.
  intros (items & -> & Hitems). unfold Sensor._get_by_path.
  destruct (status_descend path Hitems) as [(items' & -> & Hitems') | ->].
  - exists items'. split; [reflexivity | exact Hitems'].
  - exists []. split; [reflexivity | constructor].
Qed.

Lemma status_leaf (items : list json) (i : nat) :
  Forall status_node items ->
  (S i <=? List.length items)%nat = true ->
  exists leaf s, py_index (JArr items) i = Ret leaf /\
                 py_get leaf "pv" (JStr "") = Ret (JStr s).
Proof.
  intros Hitems Hlen. cbn [py_index].
  destruct (nth_error items i) as [leaf|] eqn:E.
  - assert (Hleaf : status_node leaf).
    { rewrite Forall_forall in Hitems. apply Hitems. eapply nth_error_In; eauto. }
    destruct (status_pv Hleaf) as (s & Hs). eauto.
  - rewrite (@nth_error_guard _ items i E) in Hlen. discriminate.
Qed.

End StatusTrees.

(** X13.  On a tree of status nodes (dicts whose [pv], when present, is a
    string and whose [pch], when present, is a list of status nodes) none
    of the six telemetry values raises: each is a value or [None].  This
    does not hold of every JSON tree: where the setpoint entry is a bare
    string the setpoint sensor raises [AttributeError] (the control entity
    reads no target temperature there). *)
Theorem telemetry_total_on_status_trees :
  (forall data s, status_tree data -> exists v, Sensor._get_value s data = Ret v) /\
  Sensor._get_value Sensor.DaikinSetpointSensor Examples.tree_with_bare_leaf
  = Raise AttributeError /\
  Climate.target_temperature Examples.tree_with_bare_leaf = None.
Proof.
  split; [|split; reflexivity].
  intros data s Htree.
  assert (Hlen : forall g i (k : json -> py Sensor.native),
             (forall x, exists v, k (JStr x) = Ret v) ->
             exists v,
               (path <- Sensor._get_by_path data ["e_1002"; g] ;;
                n <- py_len path ;;
                if (S i <=? n)%nat
                then leaf <- py_index path i ;;
                     pv <- py_get leaf "pv" (JStr "") ;; k pv
                else Ret Sensor.NoValue) = Ret v).
  { intros g i k Hk.
    destruct (status_get_by_path ["e_1002"; g] Htree) as (items & -> & Hitems).
    cbn [bind py_len].
    destruct (S i <=? List.length items)%nat eqn:E; [|eauto].
    destruct (status_leaf i Hitems E) as (leaf & x & -> & Hpv).
    cbn [bind]. rewrite Hpv. cbn [bind]. apply Hk. }
  assert (Htruthy : forall g (k : json -> py Sensor.native),
             (forall x, exists v, k (JStr x) = Ret v) ->
             exists v,
               (path <- Sensor._get_by_path data ["e_1002"; g] ;;
                if py_truthy path
                then leaf <- py_index path 0 ;;
                     pv <- py_get leaf "pv" (JStr "") ;; k pv
                else Ret Sensor.NoValue) = Ret v).
  { intros g k Hk.
    destruct (status_get_by_path ["e_1002"; g] Htree) as (items & -> & Hitems).
    cbn [bind]. destruct items as [|x xs]; [cbn; eauto|].
    cbn [py_truthy].
    destruct (@status_leaf (x :: xs) 0 Hitems eq_refl) as (leaf & y & -> & Hpv).
    cbn [bind]. rewrite Hpv. cbn [bind]. apply Hk. }
  destruct s; unfold Sensor._get_value.
  - apply (Hlen "e_3001" 2%nat (fun pv => Ret (Sensor._parse_hex_to_int pv 2))).
    intros x. eauto.
  - apply (Htruthy "e_A00B" (fun pv => Ret (Sensor._parse_hex_to_int pv 1))).
    intros x. eauto.
  - apply (Hlen "e_A00B" 1%nat (fun pv => Ret (Sensor._parse_hex_to_int pv 1))).
    intros x. eauto.
  - apply (Hlen "e_3001" 8%nat
             (fun hexstr =>
                label <- map_get Sensor.FAN_SPEED_MAP hexstr (Sensor.unknown hexstr) ;;
                Ret (Sensor.Text label))).
    intros x. eexists. reflexivity.
  - apply (Htruthy "e_3001"
             (fun hexstr =>
                label <- map_get Sensor.MODE_MAP hexstr (Sensor.unknown hexstr) ;;
                Ret (Sensor.Text label))).
    intros x. eexists. reflexivity.
  - apply (Htruthy "e_A002"
             (fun hexstr =>
                label <- map_get Sensor.POWER_MAP hexstr (Sensor.unknown hexstr) ;;
                Ret (Sensor.Text label))).
    intros x. eexists. reflexivity.
Qed.

(** The healthy device's tree is a tree of status nodes. *)
Lemma telemetry_total_on_status_trees_witness :
  status_tree (Examples.tree "01" "0200" "0A00") /\
  exists v, Sensor._get_value Sensor.DaikinModeSensor (Examples.tree "01" "0200" "0A00")
            = Ret v.
Proof.
  assert (H : status_tree (Examples.tree "01" "0200" "0A00")).
  { eexists. split; [reflexivity|].
    repeat first
      [ apply Forall_nil
      | apply Forall_cons
      | apply StatusNode;
        [ let Hv := fresh in
          intros ? Hv; vm_compute in Hv;
          first [ discriminate
                | inversion Hv; subst; eexists; reflexivity ]
        | let Hv := fresh in
          intros ? Hv; vm_compute in Hv;
          first [ discriminate
                | inversion Hv; subst; clear Hv; eexists; split; [reflexivity|] ] ] ]. }
  split; [exact H|].
  apply (proj1 telemetry_total_on_status_trees _ Sensor.DaikinModeSensor H).
Defined.

(** ** The status read, by the shape of the answer *)

(** X14.  For an answer with a status below 400: a JSON object without
    "responses", a first response without "pc", or a "pc" without "pch"
    gives the empty sequence; an object holding all three gives the value
    under "pch", whatever else it holds.  When reading the body raises, a
    [ClientError], [TimeoutError] or [KeyError] gives the empty sequence
    and any other exception is passed on to the caller. *)
Theorem fetch_status_by_shape (session : Http.session) (host : string)
    (resp : Http.response) :
  Http.post session ("http://" ++ host ++ "/dsiot/multireq") Sensor.payload = Ret resp ->
  Http.status resp < 400 ->
  (forall fields, Http.json_body resp = Ret (JObj fields) ->
     (dict_lookup fields "responses" = None ->
      Sensor.fetch_status session host = Ret (JArr [])) /\
     (forall first more,
        dict_lookup fields "responses" = Some (JArr (JObj first :: more)) ->
        (dict_lookup first "pc" = None ->
         Sensor.fetch_status session host = Ret (JArr [])) /\
        (forall pc, dict_lookup first "pc" = Some (JObj pc) ->
           Sensor.fetch_status session host
           = Ret (match dict_lookup pc "pch" with
                  | Some tree => tree
                  | None => JArr []
                  end)))) /\
  (forall e, Http.json_body resp = Raise e ->
     Sensor.fetch_status session host
     = if existsb (exn_eqb e) [ClientError; TimeoutError; KeyError]
       then Ret (JArr []) else Raise e).
Proof.
  intros Hpost Hstatus.
  assert (Hok : Http.raise_for_status resp = Ret tt).
  { unfold Http.raise_for_status. apply Z.leb_gt in Hstatus. rewrite Hstatus.
    reflexivity. }
  split.
  - intros fields Hbody. split.
    + intros Hmiss. unfold Sensor.fetch_status. cbv zeta.
      rewrite Hpost. cbn [bind]. rewrite Hok. cbn [bind]. rewrite Hbody.
      cbn [bind py_key]. rewrite Hmiss. reflexivity.
    + intros first more Hresp. split.
      * intros Hmiss. unfold Sensor.fetch_status. cbv zeta.
        rewrite Hpost. cbn [bind]. rewrite Hok. cbn [bind]. rewrite Hbody.
        cbn [bind py_key]. rewrite Hresp.
        cbn [bind py_index nth_error py_key]. rewrite Hmiss. reflexivity.
      * intros pc Hpc. unfold Sensor.fetch_status. cbv zeta.
        rewrite Hpost. cbn [bind]. rewrite Hok. cbn [bind]. rewrite Hbody.
        cbn [bind py_key]. rewrite Hresp.
        cbn [bind py_index nth_error py_key]. rewrite Hpc.
        cbn [bind py_key]. destruct (dict_lookup pc "pch"); reflexivity.
  - intros e Hbody. unfold Sensor.fetch_status. cbv zeta.
    rewrite Hpost. cbn [bind]. rewrite Hok. cbn [bind]. rewrite Hbody.
    reflexivity.
Qed.

(** The healthy device. *)
Lemma fetch_status_by_shape_witness :
  (Http.post Examples.healthy ("http://" ++ Examples.host ++ "/dsiot/multireq")
     Sensor.payload
   = Examples.answer (Examples.status_body (Examples.tree "01" "0200" "0A00")) /\
   200 < 400) /\
  Sensor.fetch_status Examples.healthy Examples.host
  = Ret (Examples.tree "01" "0200" "0A00").
Proof.
  split; [split; [reflexivity | lia]|].
  refine (proj2 (proj2 (proj1
            (@fetch_status_by_shape Examples.healthy Examples.host _ eq_refl _)
            _ eq_refl) _ _ eq_refl) _ eq_refl).
  simpl. lia.
Defined.

(** ** Identity of the telemetry values *)

Section UniqueIds.

Lemma append_cancel_l (p a b : string) : p ++ a = p ++ b -> a = b.
Proof.
  induction p as [|c p IH]; simpl; intros H; [exact H|].
  inversion H. auto.
Qed.

End UniqueIds.

(** X15.  The six telemetry values of one polling loop have pairwise
    distinct unique ids: two values with the same unique id are the same
    value. *)
Theorem unique_ids_distinct (DOMAIN : string) (c : Coordinator.t)
    (s1 s2 : Sensor.sensor) :
  Sensor.unique_id DOMAIN c s1 = Sensor.unique_id DOMAIN c s2 -> s1 = s2.
Proof.
  unfold Sensor.unique_id. intros H.
  apply append_cancel_l in H. simpl in H. inversion H as [H1].
  apply append_cancel_l in H1. simpl in H1.
  destruct s1, s2; try reflexivity; discriminate.
Qed.

(** Two copies of one value. *)
Lemma unique_ids_distinct_witness :
  Sensor.unique_id "daikin_alira" Examples.polled Sensor.DaikinModeSensor
  = "daikin_alira_daikin_alira-192.168.1.10_mode" /\
  Sensor.DaikinModeSensor = Sensor.DaikinModeSensor.
Proof.
  split; [reflexivity|].
  apply (@unique_ids_distinct "daikin_alira" Examples.polled). reflexivity.
Defined.

(** ** Loading and unloading *)

(** X16.  With at least two platforms declared, setting an entry up hands
    the first two platforms, in order, to the scheduler and returns [True]
    without waiting for them.  Unloading awaits the unload of the first
    platform and then of the second and returns [True] whatever the two
    report, [False] included; when an unload raises, the exception is
    passed on, and the second platform is not unloaded if the first one
    raised. *)
Theorem lifecycle_reports_success (PLATFORMS : list string)
    (sensor climate : string) (others : list string) (unload : string -> py bool) :
  PLATFORMS = sensor :: climate :: others ->
  Init.async_setup_entry PLATFORMS = ([sensor; climate], Ret true) /\
  (forall r0 r1, unload sensor = Ret r0 -> unload climate = Ret r1 ->
     Init.async_unload_entry PLATFORMS unload = ([sensor; climate], Ret true)) /\
  (forall e, unload sensor = Raise e ->
     Init.async_unload_entry PLATFORMS unload = ([sensor], Raise e)) /\
  (forall r0 e, unload sensor = Ret r0 -> unload climate = Raise e ->
     Init.async_unload_entry PLATFORMS unload = ([sensor; climate], Raise e)).
Proof.
  intros ->. split; [reflexivity|]. split; [|split].
  - intros r0 r1 H0 H1. unfold Init.async_unload_entry, Init.platform.
    cbn [nth_error]. rewrite H0, H1. reflexivity.
  - intros e H0. unfold Init.async_unload_entry, Init.platform.
    cbn [nth_error]. rewrite H0. reflexivity.
  - intros r0 e H0 H1. unfold Init.async_unload_entry, Init.platform.
    cbn [nth_error]. rewrite H0, H1. reflexivity.
Qed.

(** Both unloads report [False]. *)
Lemma lifecycle_reports_success_witness :
  ["sensor"; "climate"] = "sensor" :: "climate" :: [] /\
  Init.async_unload_entry ["sensor"; "climate"] (fun _ => Ret false)
  = (["sensor"; "climate"], Ret true).
Proof.
  split; [reflexivity|].
  apply (proj1 (proj2 (@lifecycle_reports_success ["sensor"; "climate"]
                         "sensor" "climate" [] (fun _ => Ret false) eq_refl))
           false false eq_refl eq_refl).
Defined.

(** ** What the decode helper rejects *)

Section Rejects.

Import Hex.

Lemma fromhex_bad_char (n : nat) :
  forall (cs : list ascii) (c : ascii),
    (List.length cs <= n)%nat ->
    In c cs -> digit_value c = None -> is_space c = false ->
    fromhex_chars cs = Raise ValueError.
Proof.
  induction n as [|n IH]; intros cs c Hlen Hin Hd Hs.
  - destruct cs; [destruct Hin | simpl in Hlen; lia].
  - destruct cs as [|a rest]; [destruct Hin|].
    cbn [fromhex_chars]. simpl in Hlen.
    destruct (is_space a) eqn:Ea.
    + destruct Hin as [-> | Hin]; [congruence|].
      apply (IH rest c); [lia | assumption..].
    + destruct (digit_value a) as [hi|] eqn:Da;
        [|destruct rest; reflexivity].
      destruct rest as [|d rest']; [reflexivity|].
      destruct (digit_value d) as [lo|] eqn:Dd; [|reflexivity].
      destruct Hin as [-> | [-> | Hin]]; [congruence | congruence |].
      rewrite (IH rest' c); [reflexivity | simpl in Hlen; lia | assumption..].
Qed.

End Rejects.

(** X17.  The decode helper gives [None], and raises nothing, for a
    payload that is not a string, for a scale of zero, and for a string
    holding a character that is neither a hexadecimal digit nor white
    space. *)
Theorem decode_rejects :
  (forall hexstr scale, (forall s, hexstr <> JStr s) ->
     Sensor._parse_hex_to_int hexstr scale = Sensor.NoValue) /\
  (forall hexstr, Sensor._parse_hex_to_int hexstr 0 = Sensor.NoValue) /\
  (forall s c scale,
     In c (list_ascii_of_string s) ->
     Hex.digit_value c = None -> Hex.is_space c = false ->
     Sensor._parse_hex_to_int (JStr s) scale = Sensor.NoValue).
Proof.
  split; [|split].
  - intros hexstr scale H. unfold Sensor._parse_hex_to_int.
    destruct hexstr; try reflexivity. exfalso. eapply H; reflexivity.
  - intros hexstr. unfold Sensor._parse_hex_to_int.
    destruct (Hex.fromhex hexstr); reflexivity.
  - intros s c scale Hin Hd Hs. unfold Sensor._parse_hex_to_int, Hex.fromhex.
    rewrite (@fromhex_bad_char _ _ c (le_n _) Hin Hd Hs). reflexivity.
Qed.

(** ["31G0"] holds a G. *)
Lemma decode_rejects_witness :
  (In "G"%char (list_ascii_of_string "31G0") /\
   Hex.digit_value "G" = None /\ Hex.is_space "G" = false) /\
  Sensor._parse_hex_to_int (JStr "31G0") 2 = Sensor.NoValue.
Proof.
  assert (Hin : In "G"%char (list_ascii_of_string "31G0"))
    by (simpl; tauto).
  split; [split; [exact Hin | split; reflexivity]|].
  apply (proj2 (proj2 decode_rejects) "31G0" "G"%char 2 Hin);
    reflexivity.
Defined.

(** ** What each telemetry value reads *)

(** X18.  Each telemetry value decodes the payload reported at its own
    position: the setpoint the third entry of e_3001 at scale 2, the indoor
    temperature and humidity the first and second entry of e_A00B at scale
    1, the fan speed, operation mode and power state the ninth entry of
    e_3001, the first entry of e_3001 and the first entry of e_A002
    through their tables, with ["Unknown (<hex>)"] for a code outside the
    table. *)
Theorem telemetry_reads_reported_payload (data : json) (pv : string) :
  (reports data "e_3001" 2 pv ->
   Sensor._get_value Sensor.DaikinSetpointSensor data
   = Ret (Sensor._parse_hex_to_int (JStr pv) 2)) /\
  (reports data "e_A00B" 0 pv ->
   Sensor._get_value Sensor.DaikinIndoorTempSensor data
   = Ret (Sensor._parse_hex_to_int (JStr pv) 1)) /\
  (reports data "e_A00B" 1 pv ->
   Sensor._get_value Sensor.DaikinIndoorHumiditySensor data
   = Ret (Sensor._parse_hex_to_int (JStr pv) 1)) /\
  (reports data "e_3001" 8 pv ->
   Sensor._get_value Sensor.DaikinFanSpeedSensor data
   = Ret (Sensor.Text (match dict_lookup Sensor.FAN_SPEED_MAP pv with
                       | Some label => label
                       | None => "Unknown (" ++ pv ++ ")"
                       end))) /\
  (reports data "e_3001" 0 pv ->
   Sensor._get_value Sensor.DaikinModeSensor data
   = Ret (Sensor.Text (match dict_lookup Sensor.MODE_MAP pv with
                       | Some label => label
                       | None => "Unknown (" ++ pv ++ ")"
                       end))) /\
  (reports data "e_A002" 0 pv ->
   Sensor._get_value Sensor.DaikinPowerSensor data
   = Ret (Sensor.Text (match dict_lookup Sensor.POWER_MAP pv with
                       | Some label => label
                       | None => "Unknown (" ++ pv ++ ")"
                       end))).
Proof.
  repeat split; intros (items & fields & Hpath & Hnth & Hpv);
    unfold Sensor._get_value; rewrite Hpath; cbn [bind py_len]; unfold Nat.ltb;
    try rewrite (nth_error_length_le _ _ Hnth);
    try (destruct items as [|x xs]; [discriminate|]; cbn [py_truthy]);
    cbn [bind py_index]; rewrite Hnth; cbn [bind py_get]; rewrite Hpv;
    reflexivity.
Qed.

(** The healthy device reports humidity ["32"], that is 50 percent. *)
Lemma telemetry_reads_reported_payload_witness :
  reports (Examples.tree "01" "0200" "0A00") "e_A00B" 1 "32" /\
  Sensor._get_value Sensor.DaikinIndoorHumiditySensor (Examples.tree "01" "0200" "0A00")
  = Ret (Sensor.Number 50).
Proof.
  assert (Hr : reports (Examples.tree "01" "0200" "0A00") "e_A00B" 1 "32").
  { eexists. eexists. split; [reflexivity|]. split; reflexivity. }
  split; [exact Hr|].
  apply (proj1 (proj2 (proj2 (telemetry_reads_reported_payload
                                (Examples.tree "01" "0200" "0A00") "32"))) Hr).
Defined.

(** ** The healthy device's tree, read on both surfaces *)

(** The setpoint 24.5 and the indoor temperature 24 on both surfaces. *)
Lemma temperatures_agree_witness :
  ((49 # 2 < inject_Z (2 ^ 52))%Q /\
   Climate.target_temperature (Examples.tree "01" "0200" "0A00") = Some (49 # 2)) /\
  Sensor._get_value Sensor.DaikinSetpointSensor (Examples.tree "01" "0200" "0A00")
  = Ret (Sensor.Number (49 # 2)).
Proof.
  assert (H : (49 # 2 < inject_Z (2 ^ 52))%Q) by reflexivity.
  split; [split; [exact H | reflexivity]|].
  apply (proj2 (proj1 (temperatures_agree (Examples.tree "01" "0200" "0A00"))
                  (49 # 2) H)).
  reflexivity.
Defined.

(** The fan at "Auto" on both surfaces. *)
Lemma fan_readings_agree_witness :
  Climate.fan_mode (Examples.tree "01" "0200" "0A00") = Some "Auto" /\
  Sensor._get_value Sensor.DaikinFanSpeedSensor (Examples.tree "01" "0200" "0A00")
  = Ret (Sensor.Text "Auto").
Proof.
  split; [reflexivity|].
  apply (proj1 (fan_readings_agree (Examples.tree "01" "0200" "0A00") "Auto")).
  reflexivity.
Defined.

(** ** Operation mode and the power leaf *)

Section Power.

(** The power value is "01" exactly on the trees that report "01" at the
    first entry of e_A002. *)
Lemma power_on_iff_reported (data : json) :
  Climate._get_power_value data = JStr "01" <-> reports data "e_A002" 0 "01".
Proof.
  split.
  - unfold Climate._get_power_value. intros Hp.
    destruct (Climate.children_of data "e_A002") as [pch|e] eqn:Hc;
      cbn [bind Climate.or_default] in Hp; [|discriminate].
    destruct pch as [| | | |s|items|fields]; try discriminate.
    + destruct s as [|a s]; discriminate.
    + destruct items as [|leaf rest]; [discriminate|].
      destruct leaf as [| | | | | |leaf_fields]; try discriminate.
      cbn [bind py_index nth_error py_get Climate.or_default] in Hp.
      exists (JObj leaf_fields :: rest), leaf_fields.
      split; [apply children_get_by_path; exact Hc|].
      split; [reflexivity|].
      destruct (dict_lookup leaf_fields "pv") as [x|]; [|discriminate].
      subst x. reflexivity.
  - intros Hr. unfold Climate._get_power_value.
    rewrite (reports_read (JStr "00") Hr). reflexivity.
Qed.

Lemma off_unless_on (data : json) :
  Climate._get_power_value data <> JStr "01" -> Climate.hvac_mode data = "off".
Proof.
  intros Hp. unfold Climate.hvac_mode. cbv zeta.
  rewrite (py_eq_str_false Hp). reflexivity.
Qed.

(** An e_A002 that is missing or empty, or whose first entry has no [pv]:
    the power value is the default. *)
Lemma power_absent (data : json) (items : list json) :
  Sensor._get_by_path data ["e_1002"; "e_A002"] = Ret (JArr items) ->
  items = [] \/
  (exists fields rest, items = JObj fields :: rest /\ dict_lookup fields "pv" = None) ->
  Climate._get_power_value data = JStr "00".
Proof.
  intros Hpath Habsent. unfold Climate._get_power_value.
  destruct Habsent as [-> | (fields & rest & -> & Hpv)].
  - rewrite get_by_path_of_children in Hpath.
    destruct (Climate.children_of data "e_A002") as [pch|e]; [|reflexivity].
    inversion Hpath; subst pch. reflexivity.
  - rewrite (get_by_path_children _ _ Hpath).
    cbn [bind py_index nth_error py_get]. rewrite Hpv. reflexivity.
Qed.

End Power.

(** C4.  For every status tree the power value is "01" exactly when the
    tree reports "01" at e_1002 -> e_A002 -> child[0].  Whenever it does
    not report "01" there -- another payload, an entry that is no node, an
    entry without [pv], an e_A002 or e_1002 that is missing or empty, the
    empty tree -- the operation mode is off, whatever the tree holds as
    mode code; where the leaf or its [pv] is absent the power value is
    "00".  When the power value is "01" and the first leaf under
    e_1002 -> e_3001 carries the code [code], the mode is cool for "0200"
    and off for a code outside the Mode Map. *)
Theorem mode_off_precedence (data : json) :
  (Climate._get_power_value data <> JStr "01" ->
   Climate.hvac_mode data = "off") /\
  (forall e, Climate.children_of data "e_A002" = Raise e ->
             Climate._get_power_value data = JStr "00" /\
             Climate.hvac_mode data = "off") /\
  Climate.hvac_mode (JArr []) = "off" /\
  (forall fields rest code,
      Climate._get_power_value data = JStr "01" ->
      Sensor._get_by_path data ["e_1002"; "e_3001"] = Ret (JArr (JObj fields :: rest)) ->
      dict_lookup fields "pv" = Some (JStr code) ->
      (code = "0200" -> Climate.hvac_mode data = "cool") /\
      (dict_lookup Climate.MODE_MAP code = None -> Climate.hvac_mode data = "off")) /\
  (Climate._get_power_value data = JStr "01" <-> reports data "e_A002" 0 "01") /\
  (~ reports data "e_A002" 0 "01" -> Climate.hvac_mode data = "off") /\
  (forall items,
      Sensor._get_by_path data ["e_1002"; "e_A002"] = Ret (JArr items) ->
      items = [] \/
      (exists fields rest,
          items = JObj fields :: rest /\ dict_lookup fields "pv" = None) ->
      Climate._get_power_value data = JStr "00" /\
      Climate.hvac_mode data = "off") /\
  (forall code,
      reports data "e_A002" 0 "01" -> reports data "e_3001" 0 code ->
      (code = "0200" -> Climate.hvac_mode data = "cool") /\
      (dict_lookup Climate.MODE_MAP code = None -> Climate.hvac_mode data = "off")).
Proof.
  assert (Hon : forall fields rest code,
      Climate._get_power_value data = JStr "01" ->
      Sensor._get_by_path data ["e_1002"; "e_3001"] = Ret (JArr (JObj fields :: rest)) ->
      dict_lookup fields "pv" = Some (JStr code) ->
      (code = "0200" -> Climate.hvac_mode data = "cool") /\
      (dict_lookup Climate.MODE_MAP code = None -> Climate.hvac_mode data = "off")).
  { intros fields rest code Hp Hpath Hpv.
    unfold Climate.hvac_mode. cbv zeta. rewrite Hp.
    rewrite (get_by_path_children _ _ Hpath).
    cbn [py_eq_str negb bind py_index nth_error py_get].
    rewrite Hpv. unfold map_get. cbn [map_get_opt bind].
    split; intros ->; reflexivity. }
  split; [apply off_unless_on|].
  split; [|split; [reflexivity|split; [exact Hon|]]].
  - intros e He.
    assert (Hp : Climate._get_power_value data = JStr "00")
      by (unfold Climate._get_power_value; rewrite He; reflexivity).
    split; [exact Hp|]. apply off_unless_on. rewrite Hp. discriminate.
  - split; [apply power_on_iff_reported|].
    split; [|split].
    + intros Hnot. apply off_unless_on. intros Hp.
      apply Hnot. apply power_on_iff_reported. exact Hp.
    + intros items Hpath Habsent.
      assert (Hp : Climate._get_power_value data = JStr "00")
        by (eapply power_absent; eauto).
      split; [exact Hp|]. apply off_unless_on. rewrite Hp. discriminate.
    + intros code Hpower (items & fields & Hpath & Hnth & Hpv).
      destruct items as [|x xs]; [discriminate|].
      cbn [nth_error] in Hnth. inversion Hnth; subst x.
      apply (Hon fields xs code); try assumption.
      apply power_on_iff_reported. exact Hpower.
Qed.

(** Power "01" with mode "0200" reads cool; power "00" with the same mode
    code, and an e_A002 without entries, read off. *)
Lemma mode_off_precedence_witness :
  (Climate._get_power_value (Examples.tree "00" "0200" "0A00") <> JStr "01" /\
   Climate._get_power_value (Examples.tree "01" "0200" "0A00") = JStr "01" /\
   Sensor._get_by_path
     (JArr [Examples.group "e_1002"
              [Examples.group "e_A002" [];
               Examples.group "e_3001" [Examples.leaf "p_01" "0200"]]])
     ["e_1002"; "e_A002"] = Ret (JArr [])) /\
  Climate.hvac_mode (Examples.tree "00" "0200" "0A00") = "off" /\
  Climate.hvac_mode (Examples.tree "01" "0200" "0A00") = "cool" /\
  Climate.hvac_mode
    (JArr [Examples.group "e_1002"
             [Examples.group "e_A002" [];
              Examples.group "e_3001" [Examples.leaf "p_01" "0200"]]]) = "off".
Proof.
  split; [split; [discriminate | split; reflexivity]|]. split; [|split].
  - apply (proj1 (mode_off_precedence (Examples.tree "00" "0200" "0A00"))).
    discriminate.
  - refine (proj1 (proj1 (proj2 (proj2 (proj2
             (mode_off_precedence (Examples.tree "01" "0200" "0A00")))))
             [("pn", JStr "p_01"); ("pv", JStr "0200")] _ "0200" _ _ _) _);
      reflexivity.
  - refine (proj2 (proj1 (proj2 (proj2 (proj2 (proj2 (proj2 (proj2
             (mode_off_precedence _))))))) [] _ _)).
    + reflexivity.
    + left. reflexivity.
Defined.
